(** * Instance construction and label merging of the plausible-filler
      classification pipeline (bert-models/data_preprocessing.py)

    The three functions of [data_preprocessing.py] are embedded as pure
    functions over the parsed tables: [insert_filler_markers],
    [retrieve_instances_from_dataset] and [merge_data].  Exceptions are
    values of a result type; the two tab-separated files are taken after
    parsing (a list of rows, a list of id/label pairs).

    A [string] is the sequence of code points of a Python [str] whose code
    points are all below 256, one [ascii] per code point. *)

From Stdlib Require Import Ascii.
From stdpp Require Import gmap strings list pretty.

(** ** Python values, exceptions, results *)

(** The values the untyped parameter [filler_markers] can take. *)
#[warnings="-register-all"]
Inductive pyval : Type :=
  | PyNone
  | PyBool (b : bool)
  | PyInt (z : Z)
  | PyStr (s : string)
  | PyTuple (vs : list pyval)
  | PyList (vs : list pyval).

(** Truth value of an object, as tested by [if filler_markers:]. *)
Definition truthy (v : pyval) : bool :=
  match v with
  | PyNone => false
  | PyBool b => b
  | PyInt z => negb (z =? 0)%Z
  | PyStr s => negb (String.eqb s "")
  | PyTuple vs | PyList vs => negb (length vs =? 0)
  end.

(** [type(v).__name__]. *)
Definition type_name (v : pyval) : string :=
  match v with
  | PyNone => "NoneType"
  | PyBool _ => "bool"
  | PyInt _ => "int"
  | PyStr _ => "str"
  | PyTuple _ => "tuple"
  | PyList _ => "list"
  end.

(** An exception message is kept as the pieces of the f-string that builds
    it: literal text, [{v}] (the [str] of a value) and [{v!r}] (its [repr]).
    For a string [s], [Str (PyStr s)] stands for [s] itself. *)
Inductive frag : Type :=
  | Lit (s : string)
  | Str (v : pyval)
  | Repr (v : pyval).

Definition message : Type := list frag.

Inductive exn : Type :=
  | ValueError (m : message)
  | TypeError (m : message)
  | IndexError (m : message)
  | KeyError (key : string).

Inductive result (A : Type) : Type :=
  | Ok (a : A)
  | Raise (e : exn).
Arguments Ok {A} a.
Arguments Raise {A} e.

#[global] Instance result_ret : MRet result := λ A a, Ok a.
#[global] Instance result_bind : MBind result := λ A B f m,
  match m with
  | Ok a => f a
  | Raise e => Raise e
  end.

(** [try: body except ValueError: handler]: only a [ValueError] raised by
    the body reaches the handler, every other outcome passes through. *)
Definition try_except_ValueError {A} (body handler : result A) : result A :=
  match body with
  | Raise (ValueError _) => handler
  | r => r
  end.

(** Monadic left fold: a [for] loop whose body may raise. *)
Fixpoint foldM {A S} (f : S → A → result S) (s : S) (l : list A) : result S :=
  match l with
  | [] => Ok s
  | a :: l' => s' ← f s a; foldM f s' l'
  end.

(** ** String built-ins *)

(** [str.isspace] on one code point below 256: U+0009..U+000D,
    U+001C..U+001F, U+0020, U+0085 and U+00A0. *)
Definition py_isspace (c : ascii) : bool :=
  match c with
  | "009" | "010" | "011" | "012" | "013"
  | "028" | "029" | "030" | "031" | " " | "133" | "160" => true
  | _ => false
  end%char.

(** [s.split()]: maximal runs of non-whitespace, no empty tokens.  [tok] is
    the token being read. *)
Fixpoint split_go (tok : string) (s : string) : list string :=
  match s with
  | "" => if String.eqb tok "" then [] else [tok]
  | String c s' =>
      if py_isspace c
      then (if String.eqb tok "" then split_go "" s' else tok :: split_go "" s')
      else split_go (tok +:+ String c "") s'
  end.

Definition py_split (s : string) : list string := split_go "" s.

(** [sep.join(l)] on a list of strings. *)
Fixpoint join (sep : string) (l : list string) : string :=
  match l with
  | [] => ""
  | [t] => t
  | t :: l' => t +:+ sep +:+ join sep l'
  end.

(** [sep.join(l)] on a list of objects: the first item that is not a [str]
    raises [TypeError]. *)
Fixpoint all_str (i : nat) (l : list pyval) : result (list string) :=
  match l with
  | [] => Ok []
  | PyStr t :: l' => ts ← all_str (S i) l'; Ok (t :: ts)
  | v :: _ =>
      Raise (TypeError [Lit "sequence item "; Str (PyInt (Z.of_nat i));
                        Lit ": expected str instance, "; Lit (type_name v);
                        Lit " found"])
  end.

Definition py_join (sep : string) (l : list pyval) : result string :=
  ts ← all_str 0 l; Ok (join sep ts).

(** [s.startswith(p)]. *)
Fixpoint startswith (p s : string) : bool :=
  match p, s with
  | "", _ => true
  | String a p', String b s' => if Ascii.eqb a b then startswith p' s' else false
  | String _ _, "" => false
  end.

(** [s.replace(old, new)] for a non-empty [old]: scan from the left, replace
    each occurrence found and resume after it.  [skip] counts the characters
    of the occurrence still to pass over. *)
Fixpoint replace_go (old new : string) (skip : nat) (s : string) : string :=
  match s with
  | "" => ""
  | String c s' =>
      match skip with
      | S k => replace_go old new k s'
      | 0 =>
          if startswith old s
          then new +:+ replace_go old new (String.length old - 1) s'
          else String c (replace_go old new 0 s')
      end
  end.

(** With an empty [old], [new] is put before every character and at the end. *)
Fixpoint replace_empty (new s : string) : string :=
  match s with
  | "" => new
  | String c s' => new +:+ String c (replace_empty new s')
  end.

Definition py_replace (old new s : string) : string :=
  if String.eqb old "" then replace_empty new s else replace_go old new 0 s.

(** [l.index(x)]: position of the first item equal to [x]. *)
Fixpoint find_index (x : string) (l : list string) : option nat :=
  match l with
  | [] => None
  | t :: l' => if String.eqb t x then Some 0 else S <$> find_index x l'
  end.

Definition list_index (x : string) (l : list string) : result nat :=
  match find_index x l with
  | Some i => Ok i
  | None => Raise (ValueError [Repr (PyStr x); Lit " is not in list"])
  end.

(** [l.insert(i, x)]: [x] goes before position [i] (at the end when [i] is
    past it). *)
Definition list_insert_at {A} (i : nat) (x : A) (l : list A) : list A :=
  take i l ++ x :: drop i l.

(** [v[i]] for a non-negative [i]. *)
Definition py_getitem (v : pyval) (i : nat) : result pyval :=
  match v with
  | PyTuple vs =>
      match vs !! i with
      | Some x => Ok x
      | None => Raise (IndexError [Lit "tuple index out of range"])
      end
  | PyList vs =>
      match vs !! i with
      | Some x => Ok x
      | None => Raise (IndexError [Lit "list index out of range"])
      end
  | PyStr s =>
      match String.get i s with
      | Some c => Ok (PyStr (String c ""))
      | None => Raise (IndexError [Lit "string index out of range"])
      end
  | _ => Raise (TypeError [Repr (PyStr (type_name v));
                           Lit " object is not subscriptable"])
  end.

(** ** insert_filler_markers *)

Definition blank : string := "______".

(** The guard [type(filler_markers) != tuple or len(filler_markers) != 2]. *)
Definition markers_rejected (filler_markers : pyval) : bool :=
  match filler_markers with
  | PyTuple vs => negb (length vs =? 2)
  | _ => true
  end.

Definition invalid_markers_error (filler_markers : pyval) : exn :=
  ValueError [Lit "Special tokens "; Str filler_markers; Lit " not valid. ";
              Lit "Must be a tuple of two strs: (start marker, end marker)."].

Definition missing_blank_error (sentence : string) : exn :=
  ValueError [Lit "Sentence "; Str (PyStr sentence);
              Lit " does not contain blank."].

(** The body of the [try] block. *)
Definition insert_filler_markers_body
    (sentence_tokens : list string) (filler : string) (filler_markers : pyval)
    : result string :=
  blank_index ← list_index blank sentence_tokens;
  if markers_rejected filler_markers
  then Raise (invalid_markers_error filler_markers)
  else
    end_marker ← py_getitem filler_markers 1;
    let tokens := <[blank_index := end_marker]> (PyStr <$> sentence_tokens) in
    let tokens := list_insert_at blank_index (PyStr filler) tokens in
    start_marker ← py_getitem filler_markers 0;
    let tokens := list_insert_at blank_index start_marker tokens in
    py_join " " tokens.

Definition insert_filler_markers
    (sentence filler : string) (filler_markers : pyval) : result string :=
  let sentence_tokens := py_split sentence in
  try_except_ValueError
    (insert_filler_markers_body sentence_tokens filler filler_markers)
    (Raise (missing_blank_error sentence)).

(** ** retrieve_instances_from_dataset *)

(** One record of the instances table.  A cell of type [option string] is
    [None] where the table has no value (NaN).  [Id] holds the text the
    f-string prints for [row['Id']].  The other cells are text: a table in
    which [pd.read_csv] reads a Sentence or Filler column as numbers is not
    covered by this type. *)
Record row_of (A : Type) : Type := Row {
  Id : A;
  Sentence : A;
  Filler1 : A;
  Filler2 : A;
  Filler3 : A;
  Filler4 : A;
  Filler5 : A;
  Article_title : A;
  Section_header : A;
  Previous_context : A;
  Follow_up_context : A
}.
Arguments Row {A}.
Arguments Id {A}.
Arguments Sentence {A}.
Arguments Filler1 {A}.
Arguments Filler2 {A}.
Arguments Filler3 {A}.
Arguments Filler4 {A}.
Arguments Filler5 {A}.
Arguments Article_title {A}.
Arguments Section_header {A}.
Arguments Previous_context {A}.
Arguments Follow_up_context {A}.

Abbreviation raw_row := (row_of (option string)).
Abbreviation row := (row_of string).

(** [dataset.fillna("")] on one row. *)
Definition fillna_row (r : raw_row) : row :=
  let fill := default "" in
  Row (fill (Id r)) (fill (Sentence r))
      (fill (Filler1 r)) (fill (Filler2 r)) (fill (Filler3 r))
      (fill (Filler4 r)) (fill (Filler5 r))
      (fill (Article_title r)) (fill (Section_header r))
      (fill (Previous_context r)) (fill (Follow_up_context r)).

Definition fillna (dataset : list raw_row) : list row := fillna_row <$> dataset.

(** [row[f"Filler{filler_index}"]]: a column the table does not have raises
    [KeyError]. *)
Definition get_filler (r : row) (filler_index : nat) : result string :=
  match filler_index with
  | 1 => Ok (Filler1 r)
  | 2 => Ok (Filler2 r)
  | 3 => Ok (Filler3 r)
  | 4 => Ok (Filler4 r)
  | 5 => Ok (Filler5 r)
  | _ => Raise (KeyError ("Filler" +:+ pretty filler_index))
  end.

(** ["{0} \n {1} \n{2} \n{3} \n{4}".format(...)] *)
Definition format_with_follow_up (title header previous sent follow_up : string)
    : string :=
  title +:+ " " +:+ String "010" " " +:+ header +:+ " " +:+ String "010" ""
    +:+ previous +:+ " " +:+ String "010" "" +:+ sent
    +:+ " " +:+ String "010" "" +:+ follow_up.

(** ["{0} \n {1} \n{2} \n{3}".format(...)] *)
Definition format_without_follow_up (title header previous sent : string)
    : string :=
  title +:+ " " +:+ String "010" " " +:+ header +:+ " " +:+ String "010" ""
    +:+ previous +:+ " " +:+ String "010" "" +:+ sent.

(** A statement whose value is dropped: [context.replace("(...)", "")] builds
    a new string and the name [context] keeps the old one. *)
Definition discard {A B} (_ : A) (b : B) : B := b.

(** The sentence with the filler in place of the blank (lines 27-36). *)
Definition sent_with_filler (r : row) (filler_index : nat) (filler_markers : pyval)
    : result string :=
  filler ← get_filler r filler_index;
  if truthy filler_markers
  then insert_filler_markers (Sentence r) filler filler_markers
  else Ok (py_replace blank filler (Sentence r)).

(** The text appended to [instances] for one row and one filler index
    (lines 38-59). *)
Definition instance_text
    (r : row) (filler_index : nat) (use_context : bool) (filler_markers : pyval)
    : result string :=
  sent ← sent_with_filler r filler_index filler_markers;
  if use_context then
    if negb (String.eqb (Follow_up_context r) "") then
      let context :=
        format_with_follow_up (Article_title r) (Section_header r)
          (Previous_context r) sent (Follow_up_context r) in
      discard (py_replace "(...)" "" context) (Ok context)
    else
      let context :=
        format_without_follow_up (Article_title r) (Section_header r)
          (Previous_context r) sent in
      discard (py_replace "(...)" "" context) (Ok context)
  else Ok sent.

(** The instance id [f"{row['Id']}_{filler_index}"]. *)
Definition instance_id (r : row) (filler_index : nat) : string :=
  Id r +:+ "_" +:+ pretty filler_index.

(** Body of the inner loop: the two lists [ids] and [instances] are the
    state; [ids] is extended before the text is built. *)
Definition inner_step (r : row) (use_context : bool) (filler_markers : pyval)
    (st : list string * list string) (filler_index : nat)
    : result (list string * list string) :=
  let ids := st.1 ++ [instance_id r filler_index] in
  text ← instance_text r filler_index use_context filler_markers;
  Ok (ids, st.2 ++ [text]).

(** [range(1, 6)] *)
Definition filler_indices : list nat := seq 1 5.

Definition outer_step (use_context : bool) (filler_markers : pyval)
    (st : list string * list string) (r : row)
    : result (list string * list string) :=
  foldM (inner_step r use_context filler_markers) st filler_indices.

Definition retrieve_instances_from_dataset
    (dataset : list raw_row) (use_context : bool) (filler_markers : pyval)
    : result (list string * list string) :=
  let dataset := fillna dataset in
  foldM (outer_step use_context filler_markers) ([], []) dataset.

(** ** merge_data *)

(** The merged table: three columns of equal length. *)
Record merged_df : Type := MergedDf {
  col_ids : list string;
  col_text : list string;
  col_label : list Z
}.

Definition invalid_label_error (label : string) : exn :=
  ValueError [Lit "Label "; Str (PyStr label);
              Lit " is not a valid plausibility class."].

(** The [if]/[elif] chain of lines 123-130. *)
Definition label_code (label : string) : result Z :=
  if String.eqb label "IMPLAUSIBLE" then Ok 0%Z
  else if String.eqb label "NEUTRAL" then Ok 1%Z
  else if String.eqb label "PLAUSIBLE" then Ok 2%Z
  else Raise (invalid_label_error label).

(** The dict comprehension over the rows of the labels table: a later row
    with the same id replaces an earlier one. *)
Definition build_label_dict (labels_df : list (string * string))
    : gmap string string :=
  foldl (λ d '(id, label), <[id := label]> d) ∅ labels_df.

(** [label_dict[id_elem]] *)
Definition dict_getitem (d : gmap string string) (key : string) : result string :=
  match d !! key with
  | Some v => Ok v
  | None => Raise (KeyError key)
  end.

(** Body of the merge loop (lines 119-130). *)
Definition merge_step (label_dict : gmap string string)
    (df : merged_df) (item : string * string) : result merged_df :=
  let '(id_elem, instance) := item in
  let ids := col_ids df ++ [id_elem] in
  let text := col_text df ++ [instance] in
  label ← dict_getitem label_dict id_elem;
  code ← label_code label;
  Ok (MergedDf ids text (col_label df ++ [code])).

(** [instances_df] and [labels_df] are the two files as read by
    [pd.read_csv]. *)
Definition merge_data
    (instances_df : list raw_row) (labels_df : list (string * string))
    (use_context : bool) (filler_markers : pyval) : result merged_df :=
  let label_dict := build_label_dict labels_df in
  '(ids, instances) ←
    retrieve_instances_from_dataset instances_df use_context filler_markers;
  foldM (merge_step label_dict) (MergedDf [] [] []) (zip ids instances).

(** ** Vocabulary of the statements *)

(** [map] with a function that may raise: the first failure, in list order,
    is the outcome. *)
Fixpoint mapM {A B} (f : A → result B) (l : list A) : result (list B) :=
  match l with
  | [] => Ok []
  | a :: l' => b ← f a; bs ← mapM f l'; Ok (b :: bs)
  end.

(** The (row, filler index) pairs in the order the two loops visit them. *)
Definition dataset_instances (dataset : list raw_row) : list (row * nat) :=
  r ← fillna dataset; pair r <$> filler_indices.

(** [sub in s] *)
Fixpoint contains (sub s : string) : bool :=
  startswith sub s ||
  match s with
  | "" => false
  | String _ s' => contains sub s'
  end.

(** No occurrence of [old] starts inside [p] when [p] is followed by
    [rest]. *)
Fixpoint no_start (old p rest : string) : bool :=
  match p with
  | "" => true
  | String _ p' => negb (startswith old (p +:+ rest)) && no_start old p' rest
  end.

(** What one pass of the merge loop looks up and converts. *)
Definition code_of_id (label_dict : gmap string string) (id_elem : string)
    : result Z :=
  label ← dict_getitem label_dict id_elem; label_code label.

(** The five ids of one row, as the specification lists them. *)
Definition row_ids (r : row) : list string :=
  [Id r +:+ "_1"; Id r +:+ "_2"; Id r +:+ "_3"; Id r +:+ "_4"; Id r +:+ "_5"].

Definition dataset_ids (dataset : list raw_row) : list string :=
  r ← fillna dataset; row_ids r.

(** The fixed mapping from label strings to ordinal codes. *)
Inductive ordinal_code : string → Z → Prop :=
  | code_implausible : ordinal_code "IMPLAUSIBLE" 0
  | code_neutral : ordinal_code "NEUTRAL" 1
  | code_plausible : ordinal_code "PLAUSIBLE" 2.

(** The first [n] characters of [s], and [s] without them. *)
Fixpoint str_take (n : nat) (s : string) : string :=
  match n, s with
  | S k, String c s' => String c (str_take k s')
  | _, _ => ""
  end.

Fixpoint str_drop (n : nat) (s : string) : string :=
  match n, s with
  | S k, String _ s' => str_drop k s'
  | _, _ => s
  end.

(** [s] without the [len] characters from offset [off] on. *)
Definition remove_span (off len : nat) (s : string) : string :=
  str_take off s +:+ str_drop (off + len) s.

(** The text in front of token number [i] when [tokens] are joined by single
    spaces: the tokens before it, each followed by one space. *)
Fixpoint lead (tokens : list string) : string :=
  match tokens with
  | [] => ""
  | t :: l => t +:+ " " +:+ lead l
  end.

(** The text after a token when the tokens [tokens] follow it. *)
Fixpoint trail (tokens : list string) : string :=
  match tokens with
  | [] => ""
  | t :: l => " " +:+ t +:+ trail l
  end.

(** [expected] stands in [s] at offset [off]. *)
Definition has_at (off : nat) (expected s : string) : bool :=
  String.eqb (str_take (String.length expected) (str_drop off s)) expected.

(** [s] without [expected] at offset [off]; nothing when [expected] does not
    stand there. *)
Definition cut_at (off : nat) (expected s : string) : option string :=
  if has_at off expected s
  then Some (remove_span off (String.length expected) s)
  else None.

(** Removing the marker pair from an output [out] of [insert_filler_markers]
    and collapsing the spacing the pair introduced: the start marker must
    stand where the blank token stood, followed by one space, and is cut out
    with that space; the end marker must then stand after the filler,
    preceded by one space, and is cut out with that space.  There is no
    result when one of the two is not found at its place. *)
Definition strip_markers (sentence filler start_marker end_marker out : string)
    : option string :=
  let tokens := py_split sentence in
  let blank_index := default 0 (find_index blank tokens) in
  let off := String.length (lead (take blank_index tokens)) in
  out ← cut_at off (start_marker +:+ " ") out;
  cut_at (off + String.length filler) (" " +:+ end_marker) out.

(** The line feed, U+000A. *)
Definition newline : string := String "010" "".

(** The context text as the specification words it: the segments joined by
    newlines, the follow-up context last and only when it is not empty. *)
Definition newline_joined_context (r : row) (sent : string) : string :=
  join newline
    ([Article_title r; Section_header r; Previous_context r; sent]
     ++ (if String.eqb (Follow_up_context r) "" then [] else [Follow_up_context r])).

(** ** Sample tables *)

Definition sample_row : raw_row :=
  Row (Some "7") (Some "Add the ______ now.")
      (Some "salt") (Some "brown sugar") (Some "water") None (Some "eggs")
      (Some "Cake") (Some "Steps") (Some "Heat the oven.") None.

Definition sample_row_follow_up : raw_row :=
  Row (Some "8") (Some "Stir the ______ well.")
      (Some "mix") (Some "batter") (Some "dough") (Some "soup") (Some "tea")
      (Some "Cake") (Some "Steps") (Some "Heat the oven.") (Some "Serve warm.").

Definition sample_row_ellipsis : raw_row :=
  Row (Some "9") (Some "Add the ______ now.")
      (Some "salt") (Some "brown sugar") (Some "water") (Some "milk") (Some "eggs")
      (Some "Cake") (Some "Steps") (Some "(...) Heat the oven.") None.

Definition sample_row_two_blanks : raw_row :=
  Row (Some "10") (Some "Mix ______ and (______).")
      (Some "salt") (Some "brown sugar") (Some "water") (Some "milk") (Some "eggs")
      None None None None.

Definition sample_labels : list (string * string) :=
  [("7_1", "PLAUSIBLE"); ("7_2", "NEUTRAL"); ("7_3", "IMPLAUSIBLE");
   ("7_4", "NEUTRAL"); ("7_5", "PLAUSIBLE")].

Definition sample_labels_maybe : list (string * string) :=
  [("7_1", "PLAUSIBLE"); ("7_2", "MAYBE"); ("7_3", "IMPLAUSIBLE");
   ("7_4", "NEUTRAL"); ("7_5", "PLAUSIBLE")].

Definition sample_labels_missing : list (string * string) :=
  [("7_1", "PLAUSIBLE"); ("7_2", "NEUTRAL"); ("7_3", "IMPLAUSIBLE");
   ("7_5", "PLAUSIBLE")].

Definition F_markers : pyval := PyTuple [PyStr "[F]"; PyStr "[/F]"].

(** ** Further vocabulary *)

(** Some character of [s] is whitespace. *)
Fixpoint has_space (s : string) : bool :=
  match s with
  | "" => false
  | String c s' => py_isspace c || has_space s'
  end.

(** [FILLER_MARKERS] as bert-models/main.py sets it for its calls of
    [merge_data], and the pair of markers that simple-features/main.py sets
    (for the [merge_data] of its own preprocessing module, which is a
    different file): the pair of the docstring of [insert_filler_markers]. *)
Definition BERT_MODELS_FILLER_MARKERS : pyval := PyNone.

Definition SIMPLE_FEATURES_FILLER_MARKERS : pyval :=
  PyTuple [PyStr "[F]"; PyStr "[/F]"].

(** * Properties *)

#[local] Arguments String.append : simpl nomatch.

(** ** Strings and lists *)

Section StringFacts.
Implicit Types s t u : string.

Lemma str_app_nil_r s : s +:+ "" = s.
Proof. induction s as [|c s IH]; simpl; [done | by rewrite IH]. Qed.

Lemma str_app_assoc s t u : (s +:+ t) +:+ u = s +:+ t +:+ u.
Proof. induction s as [|c s IH]; simpl; [done | by rewrite IH]. Qed.

Lemma str_length_app s t :
  String.length (s +:+ t) = String.length s + String.length t.
Proof. induction s as [|c s IH]; simpl; [done | by rewrite IH]. Qed.

Lemma str_take_app s t : str_take (String.length s) (s +:+ t) = s.
Proof. induction s as [|c s IH]; simpl; [by destruct t | by rewrite IH]. Qed.

Lemma str_drop_app s t : str_drop (String.length s) (s +:+ t) = t.
Proof. induction s as [|c s IH]; simpl; [by destruct t | done]. Qed.

(** Cutting the middle part out of a three-part string. *)
Lemma remove_span_app s t u :
  remove_span (String.length s) (String.length t) (s +:+ t +:+ u) = s +:+ u.
Proof.
  unfold remove_span. rewrite str_take_app. f_equal.
  rewrite <- str_length_app, <- str_app_assoc. apply str_drop_app.
Qed.

Lemma cut_at_app s t u :
  cut_at (String.length s) t (s +:+ t +:+ u) = Some (s +:+ u).
Proof.
  unfold cut_at, has_at.
  by rewrite str_drop_app, str_take_app, String.eqb_refl, remove_span_app.
Qed.

Lemma startswith_refl_app s t : startswith s (s +:+ t) = true.
Proof.
  induction s as [|c s IH]; simpl; [done |].
  by rewrite Ascii.eqb_refl.
Qed.

Lemma contains_self s : contains s s = true.
Proof.
  destruct s as [|c s]; [done |].
  unfold contains; fold contains.
  rewrite <- (str_app_nil_r (String c s)) at 2.
  by rewrite startswith_refl_app.
Qed.
End StringFacts.

Lemma find_index_None x (l : list string) : find_index x l = None ↔ x ∉ l.
Proof.
  induction l as [|t l IH]; simpl.
  - split; [intros _; apply not_elem_of_nil | done].
  - destruct (String.eqb_spec t x) as [->|Hne].
    + split; [done | intros []; left].
    + rewrite not_elem_of_cons, <- IH.
      destruct (find_index x l); simpl; intuition congruence.
Qed.

Lemma find_index_app x (pre post : list string) :
  x ∉ pre → find_index x (pre ++ x :: post) = Some (length pre).
Proof.
  induction pre as [|t pre IH]; simpl; intros Hx.
  - by rewrite String.eqb_refl.
  - apply not_elem_of_cons in Hx as [Hne Hx].
    destruct (String.eqb_spec t x) as [->|_]; [done |].
    by rewrite IH.
Qed.

Lemma find_index_lt x (l : list string) i :
  find_index x l = Some i → i < length l.
Proof.
  revert i. induction l as [|t l IH]; simpl; intros i; [done |].
  destruct (String.eqb t x); [intros [= <-]; lia |].
  destruct (find_index x l) as [j|]; [|done].
  intros [= <-]. specialize (IH _ eq_refl). lia.
Qed.

Lemma find_index_elem x (l : list string) :
  x ∈ l → ∃ i, find_index x l = Some i ∧ i < length l.
Proof.
  intros Hx. destruct (find_index x l) as [i|] eqn:Hi.
  - exists i. eauto using find_index_lt.
  - by apply find_index_None in Hi.
Qed.

Lemma list_insert_at_app {A} (x : A) (l1 l2 : list A) i :
  i = length l1 → list_insert_at i x (l1 ++ l2) = l1 ++ x :: l2.
Proof.
  intros ->. unfold list_insert_at.
  by rewrite take_app_length, drop_app_length.
Qed.

Lemma all_str_fmap i (l : list string) : all_str i (PyStr <$> l) = Ok l.
Proof.
  revert i. induction l as [|t l IH]; intros i; simpl; [done |].
  by rewrite IH.
Qed.

(** ** insert_filler_markers *)

Section InsertFillerMarkers.
Variables sentence filler : string.

(** With a pair of strings and a blank token, the markers and the filler
    take the place of the first blank token. *)
Lemma insert_filler_markers_tokens start_marker end_marker pre post :
  py_split sentence = pre ++ blank :: post →
  blank ∉ pre →
  insert_filler_markers sentence filler
    (PyTuple [PyStr start_marker; PyStr end_marker])
  = Ok (join " " (pre ++ start_marker :: filler :: end_marker :: post)).
Proof.
  intros Hsplit Hpre.
  unfold insert_filler_markers, insert_filler_markers_body, list_index.
  rewrite Hsplit, find_index_app by done. simpl.
  rewrite fmap_app, fmap_cons.
  rewrite insert_app_r_alt by (rewrite length_fmap; lia).
  rewrite length_fmap, Nat.sub_diag. simpl.
  rewrite !list_insert_at_app by (by rewrite length_fmap).
  replace ((PyStr <$> pre) ++ PyStr start_marker :: PyStr filler
             :: PyStr end_marker :: (PyStr <$> post))
    with (PyStr <$> pre ++ start_marker :: filler :: end_marker :: post)
    by (by rewrite fmap_app).
  unfold py_join. by rewrite all_str_fmap.
Qed.

Lemma insert_filler_markers_succeeds start_marker end_marker :
  blank ∈ py_split sentence →
  ∃ out, insert_filler_markers sentence filler
           (PyTuple [PyStr start_marker; PyStr end_marker]) = Ok out.
Proof.
  intros (pre & post & Hsplit & Hpre)%list_elem_of_split_l.
  eauto using insert_filler_markers_tokens.
Qed.

(** A marker argument the guard rejects is reported as a missing blank:
    the [ValueError] raised inside the [try] block is caught by its own
    [except ValueError] clause. *)
Lemma rejected_markers_reported_as_missing_blank filler_markers :
  blank ∈ py_split sentence →
  markers_rejected filler_markers = true →
  insert_filler_markers_body (py_split sentence) filler filler_markers
    = Raise (invalid_markers_error filler_markers)
  ∧ insert_filler_markers sentence filler filler_markers
    = Raise (missing_blank_error sentence).
Proof.
  intros (i & Hi & _)%find_index_elem Hrej.
  unfold insert_filler_markers, insert_filler_markers_body, list_index.
  by rewrite Hi; simpl; rewrite Hrej.
Qed.

(** C7: a sentence whose whitespace tokens do not include the blank token
    makes [insert_filler_markers] raise the [ValueError] whose message is
    "Sentence <sentence> does not contain blank.", whatever the filler and
    the marker argument are. *)
Theorem insert_filler_markers_missing_blank filler_markers :
  blank ∉ py_split sentence →
  insert_filler_markers sentence filler filler_markers
  = Raise (ValueError [Lit "Sentence "; Str (PyStr sentence);
                       Lit " does not contain blank."]).
Proof.
  intros Hno%find_index_None.
  unfold insert_filler_markers, insert_filler_markers_body, list_index.
  by rewrite Hno.
Qed.
End InsertFillerMarkers.

Lemma insert_filler_markers_missing_blank_witness :
  (blank ∉ py_split "This is an example.")
  ∧ insert_filler_markers "This is an example." "really simple" F_markers
    = Raise (ValueError [Lit "Sentence "; Str (PyStr "This is an example.");
                         Lit " does not contain blank."]).
Proof.
  assert (Hno : blank ∉ py_split "This is an example.")
    by (apply find_index_None; reflexivity).
  split; [exact Hno |].
  exact (insert_filler_markers_missing_blank
           "This is an example." "really simple" F_markers Hno).
Defined.

(** C6: the docstring example.  The sentence "This is a ______ example."
    with the filler "really simple" and the markers ("[F]", "[/F]") gives
    "This is a [F] really simple [/F] example.". *)
Theorem insert_filler_markers_docstring_example :
  insert_filler_markers "This is a ______ example." "really simple"
    (PyTuple [PyStr "[F]"; PyStr "[/F]"])
  = Ok "This is a [F] really simple [/F] example.".
Proof. reflexivity. Qed.

(** C1: at the sentence "This is a ______ example." and the list
    ["[F]", "[/F]"] as marker argument, the [try] block raises the
    invalid-markers [ValueError], and the call ends with the missing-blank
    [ValueError] instead, although the sentence has a blank token. *)
Theorem invalid_markers_error_is_replaced :
  blank ∈ py_split "This is a ______ example."
  ∧ insert_filler_markers_body (py_split "This is a ______ example.")
      "really simple" (PyList [PyStr "[F]"; PyStr "[/F]"])
    = Raise (ValueError
        [Lit "Special tokens "; Str (PyList [PyStr "[F]"; PyStr "[/F]"]);
         Lit " not valid. ";
         Lit "Must be a tuple of two strs: (start marker, end marker)."])
  ∧ insert_filler_markers "This is a ______ example." "really simple"
      (PyList [PyStr "[F]"; PyStr "[/F]"])
    = Raise (ValueError
        [Lit "Sentence "; Str (PyStr "This is a ______ example.");
         Lit " does not contain blank."]).
Proof.
  split; [|split; reflexivity].
  vm_compute. do 3 right. left.
Qed.

(** A two-element tuple whose items are not strings passes the guard; the
    call then fails in [" ".join] with a [TypeError]. *)
Lemma non_str_markers_raise_TypeError :
  insert_filler_markers "This is a ______ example." "really simple"
    (PyTuple [PyInt 1; PyStr "[/F]"])
  = Raise (TypeError [Lit "sequence item "; Str (PyInt 3);
                      Lit ": expected str instance, "; Lit "int";
                      Lit " found"]).
Proof. reflexivity. Qed.

(** ** retrieve_instances_from_dataset *)

Lemma bind_Ok {A B} (m : result A) (f : A → result B) b :
  m ≫= f = Ok b ↔ ∃ a, m = Ok a ∧ f a = Ok b.
Proof.
  destruct m as [a|e]; simpl; split.
  - eauto.
  - by intros (? & [= <-] & ?).
  - done.
  - by intros (? & ? & ?).
Qed.

Lemma mapM_Ok {A B} (f : A → result B) l bs :
  mapM f l = Ok bs ↔ Forall2 (λ a b, f a = Ok b) l bs.
Proof.
  revert bs. induction l as [|a l IH]; intros bs; simpl.
  - split; [intros [= <-]; constructor | by inversion 1].
  - split.
    + intros (b & Hb & (bs' & Hbs & [= <-])%bind_Ok)%bind_Ok.
      constructor; [done | by apply IH].
    + inversion 1 as [|? b ? bs' Hb Hbs]; subst.
      apply IH in Hbs. unfold mbind, result_bind. by rewrite Hb, Hbs.
Qed.

Lemma mapM_app {A B} (f : A → result B) l1 l2 :
  mapM f (l1 ++ l2) = bs1 ← mapM f l1; bs2 ← mapM f l2; Ok (bs1 ++ bs2).
Proof.
  induction l1 as [|a l1 IH]; simpl.
  - by destruct (mapM f l2).
  - destruct (f a); simpl; [|done]. rewrite IH.
    destruct (mapM f l1); simpl; [|done]. by destruct (mapM f l2).
Qed.

Lemma instance_id_row_ids r : instance_id r <$> filler_indices = row_ids r.
Proof. reflexivity. Qed.

Section Loops.
Variables (use_context : bool) (filler_markers : pyval).

(** The inner loop as a [mapM] over the filler indices. *)
Lemma inner_loop r l st :
  foldM (inner_step r use_context filler_markers) st l
  = texts ← mapM (λ k, instance_text r k use_context filler_markers) l;
    Ok (st.1 ++ (instance_id r <$> l), st.2 ++ texts).
Proof.
  revert st. induction l as [|k l IH]; intros [ids insts]; cbn [foldM mapM].
  - simpl. by rewrite !app_nil_r.
  - change (inner_step r use_context filler_markers (ids, insts) k)
      with (text ← instance_text r k use_context filler_markers;
            Ok (ids ++ [instance_id r k], insts ++ [text])).
    destruct (instance_text r k use_context filler_markers); simpl; [|done].
    rewrite IH. simpl.
    destruct (mapM _ l); simpl; [|done].
    by rewrite <- !app_assoc.
Qed.

(** The outer loop as a [mapM] over the (row, filler index) pairs. *)
Lemma outer_loop rows st :
  foldM (outer_step use_context filler_markers) st rows
  = texts ← mapM (λ p, instance_text p.1 p.2 use_context filler_markers)
              (r ← rows; pair r <$> filler_indices);
    Ok (st.1 ++ (r ← rows; row_ids r), st.2 ++ texts).
Proof.
  revert st. induction rows as [|r rows IH]; intros [ids insts].
  - simpl. by rewrite !app_nil_r.
  - cbn [foldM].
    change (outer_step use_context filler_markers (ids, insts) r)
      with (foldM (inner_step r use_context filler_markers) (ids, insts)
              filler_indices).
    rewrite inner_loop, instance_id_row_ids.
    rewrite !bind_cons, mapM_app.
    assert (mapM (λ p, instance_text p.1 p.2 use_context filler_markers)
              (pair r <$> filler_indices)
            = mapM (λ k, instance_text r k use_context filler_markers)
                filler_indices) as -> by reflexivity.
    destruct (mapM _ filler_indices) as [texts|]; simpl; [|done].
    rewrite IH. simpl.
    destruct (mapM _ _); simpl; [|done].
    by rewrite <- !app_assoc.
Qed.

Lemma retrieve_instances_from_dataset_mapM dataset :
  retrieve_instances_from_dataset dataset use_context filler_markers
  = texts ← mapM (λ p, instance_text p.1 p.2 use_context filler_markers)
              (dataset_instances dataset);
    Ok (dataset_ids dataset, texts).
Proof. unfold retrieve_instances_from_dataset. by rewrite outer_loop. Qed.

(** The call returns exactly when every instance text can be built. *)
Lemma retrieve_instances_from_dataset_Ok dataset ids texts :
  retrieve_instances_from_dataset dataset use_context filler_markers
    = Ok (ids, texts)
  ↔ ids = dataset_ids dataset
    ∧ Forall2 (λ p text,
                 instance_text p.1 p.2 use_context filler_markers = Ok text)
        (dataset_instances dataset) texts.
Proof.
  rewrite retrieve_instances_from_dataset_mapM, bind_Ok.
  setoid_rewrite mapM_Ok. split.
  - by intros (? & ? & [= <- <-]).
  - intros [-> ?]. eauto.
Qed.
End Loops.

Lemma mapM_total {A B} (f : A → result B) l :
  Forall (λ a, ∃ b, f a = Ok b) l → ∃ bs, mapM f l = Ok bs.
Proof.
  induction 1 as [|a l [b Hb] _ [bs Hbs]]; simpl; [by eexists |].
  rewrite Hb; simpl. rewrite Hbs; simpl. by eexists.
Qed.

Lemma elem_of_dataset_instances dataset r k :
  (r, k) ∈ dataset_instances dataset ↔ r ∈ fillna dataset ∧ k ∈ filler_indices.
Proof.
  unfold dataset_instances. rewrite list_elem_of_bind. split.
  - intros (r' & (k' & [= -> ->] & Hk)%list_elem_of_fmap & Hr). done.
  - intros [Hr Hk]. exists r. split; [|done].
    apply list_elem_of_fmap. eauto.
Qed.

Lemma length_dataset_ids dataset :
  length (dataset_ids dataset) = 5 * length dataset.
Proof.
  unfold dataset_ids, fillna.
  induction dataset as [|r l IH]; [done |].
  rewrite fmap_cons, bind_cons, length_app, IH. simpl. lia.
Qed.

Lemma length_dataset_instances dataset :
  length (dataset_instances dataset) = 5 * length dataset.
Proof.
  unfold dataset_instances, fillna.
  induction dataset as [|r l IH]; [done |].
  rewrite fmap_cons, bind_cons, length_app, IH. simpl. lia.
Qed.

Lemma get_filler_Ok r k :
  k ∈ filler_indices → ∃ filler, get_filler r k = Ok filler.
Proof.
  unfold filler_indices. rewrite elem_of_seq. intros [Hlo Hhi].
  do 6 (destruct k as [|k]; [simpl; eauto; lia |]). lia.
Qed.

(** The text of one instance, given the sentence with its filler. *)
Lemma instance_text_of_sent r k use_context filler_markers sent :
  sent_with_filler r k filler_markers = Ok sent →
  instance_text r k use_context filler_markers
  = Ok (if use_context
        then Article_title r +:+ " " +:+ newline +:+ " " +:+ Section_header r
               +:+ " " +:+ newline +:+ Previous_context r
               +:+ " " +:+ newline +:+ sent
               +:+ (if String.eqb (Follow_up_context r) "" then ""
                    else " " +:+ newline +:+ Follow_up_context r)
        else sent).
Proof.
  intros Hsent. unfold instance_text. rewrite Hsent. simpl.
  destruct use_context; [|done].
  destruct (String.eqb (Follow_up_context r) ""); simpl; unfold discard;
    unfold format_with_follow_up, format_without_follow_up, newline.
  - by rewrite str_app_nil_r.
  - do 2 f_equal.
Qed.

Lemma instance_text_Ok r k use_context filler_markers text :
  instance_text r k use_context filler_markers = Ok text →
  ∃ sent, sent_with_filler r k filler_markers = Ok sent.
Proof.
  unfold instance_text.
  destruct (sent_with_filler r k filler_markers); [eauto | done].
Qed.

Lemma retrieve_instances_lengths dataset use_context filler_markers ids texts :
  retrieve_instances_from_dataset dataset use_context filler_markers
    = Ok (ids, texts) →
  length texts = length ids.
Proof.
  intros [-> Htexts]%retrieve_instances_from_dataset_Ok.
  apply Forall2_length in Htexts.
  by rewrite <- Htexts, length_dataset_instances, length_dataset_ids.
Qed.

(** C5: whenever [retrieve_instances_from_dataset] returns, its id list is
    the five ids "<Id>_1" ... "<Id>_5" of each row, row after row, and the
    text list has the same length.  It does return when no markers are
    supplied, and when the markers are a pair of strings and every sentence
    has a blank token. *)
Theorem retrieve_instances_ids dataset use_context filler_markers :
  (∀ ids texts,
     retrieve_instances_from_dataset dataset use_context filler_markers
       = Ok (ids, texts) →
     ids = dataset_ids dataset
     ∧ length ids = 5 * length dataset
     ∧ length texts = length ids)
  ∧ (truthy filler_markers = false →
     ∃ texts,
       retrieve_instances_from_dataset dataset use_context filler_markers
       = Ok (dataset_ids dataset, texts))
  ∧ (∀ start_marker end_marker,
       filler_markers = PyTuple [PyStr start_marker; PyStr end_marker] →
       Forall (λ r : row, blank ∈ py_split (Sentence r)) (fillna dataset) →
       ∃ texts,
         retrieve_instances_from_dataset dataset use_context filler_markers
         = Ok (dataset_ids dataset, texts)).
Proof.
  assert (Hsuff :
    (∀ r k, r ∈ fillna dataset → k ∈ filler_indices →
            ∃ sent, sent_with_filler r k filler_markers = Ok sent) →
    ∃ texts,
      retrieve_instances_from_dataset dataset use_context filler_markers
      = Ok (dataset_ids dataset, texts)).
  { intros Hall. rewrite retrieve_instances_from_dataset_mapM.
    destruct (mapM_total
                (λ p, instance_text p.1 p.2 use_context filler_markers)
                (dataset_instances dataset)) as [texts Htexts].
    - apply Forall_forall. intros [r k] [Hr Hk]%elem_of_dataset_instances.
      destruct (Hall r k Hr Hk) as [sent Hsent]. simpl.
      erewrite instance_text_of_sent by done. by eexists.
    - rewrite Htexts. by eexists. }
  split; [|split].
  - intros ids texts [-> Htexts]%retrieve_instances_from_dataset_Ok.
    split; [done |]. rewrite length_dataset_ids. split; [done |].
    apply Forall2_length in Htexts.
    by rewrite <- Htexts, length_dataset_instances.
  - intros Hfalse. apply Hsuff. intros r k _ Hk.
    destruct (get_filler_Ok r k Hk) as [filler Hf].
    unfold sent_with_filler. rewrite Hf, Hfalse. simpl. by eexists.
  - intros start_marker end_marker -> Hblank. apply Hsuff. intros r k Hr Hk.
    destruct (get_filler_Ok r k Hk) as [filler Hf].
    unfold sent_with_filler. rewrite Hf. simpl.
    rewrite Forall_forall in Hblank.
    by apply insert_filler_markers_succeeds, Hblank.
Qed.

Lemma retrieve_instances_ids_witness :
  retrieve_instances_from_dataset [sample_row; sample_row_follow_up] false PyNone
  = Ok (["7_1"; "7_2"; "7_3"; "7_4"; "7_5"; "8_1"; "8_2"; "8_3"; "8_4"; "8_5"],
        ["Add the salt now."; "Add the brown sugar now.";
         "Add the water now."; "Add the  now."; "Add the eggs now.";
         "Stir the mix well."; "Stir the batter well.";
         "Stir the dough well."; "Stir the soup well."; "Stir the tea well."])
  ∧ (∃ texts,
       retrieve_instances_from_dataset [sample_row; sample_row_follow_up]
         false PyNone
       = Ok (dataset_ids [sample_row; sample_row_follow_up], texts))
  ∧ (∃ texts,
       retrieve_instances_from_dataset [sample_row; sample_row_follow_up]
         false F_markers
       = Ok (dataset_ids [sample_row; sample_row_follow_up], texts)).
Proof.
  split; [reflexivity |]. split.
  - destruct (retrieve_instances_ids [sample_row; sample_row_follow_up]
                false PyNone) as (_ & Hnone & _).
    apply Hnone. reflexivity.
  - destruct (retrieve_instances_ids [sample_row; sample_row_follow_up]
                false F_markers) as (_ & _ & Hpair).
    apply (Hpair "[F]" "[/F]"); [reflexivity |].
    apply Forall_cons_2; [vm_compute; do 2 right; left |].
    apply Forall_cons_2; [vm_compute; do 2 right; left |].
    apply Forall_nil_2.
Defined.

(** C8 (amended): with context enabled, every instance text is the title,
    the section header, the previous context and the sentence with its
    filler, in this order, separated by the separators of the format string
    (space-newline-space after the title, space-newline after the header
    and after the previous context); a non-empty follow-up context is added
    as the last segment after one more space-newline, an empty one adds
    nothing. *)
Theorem context_assembly dataset filler_markers ids texts :
  retrieve_instances_from_dataset dataset true filler_markers = Ok (ids, texts) →
  Forall2
    (λ p text,
       ∃ sent,
         sent_with_filler p.1 p.2 filler_markers = Ok sent
         ∧ text
           = Article_title p.1 +:+ " " +:+ newline +:+ " "
               +:+ Section_header p.1 +:+ " " +:+ newline
               +:+ Previous_context p.1 +:+ " " +:+ newline +:+ sent
               +:+ (if String.eqb (Follow_up_context p.1) "" then ""
                    else " " +:+ newline +:+ Follow_up_context p.1))
    (dataset_instances dataset) texts.
Proof.
  intros [_ Htexts]%retrieve_instances_from_dataset_Ok.
  eapply Forall2_impl; [exact Htexts |].
  intros [r k] text Htext. simpl in *.
  destruct (instance_text_Ok _ _ _ _ _ Htext) as [sent Hsent].
  exists sent. split; [done |].
  rewrite (instance_text_of_sent _ _ true _ _ Hsent) in Htext.
  by injection Htext as <-.
Qed.

Lemma context_assembly_witness :
  Forall2
    (λ p text,
       ∃ sent,
         sent_with_filler p.1 p.2 PyNone = Ok sent
         ∧ text
           = Article_title p.1 +:+ " " +:+ newline +:+ " "
               +:+ Section_header p.1 +:+ " " +:+ newline
               +:+ Previous_context p.1 +:+ " " +:+ newline +:+ sent
               +:+ (if String.eqb (Follow_up_context p.1) "" then ""
                    else " " +:+ newline +:+ Follow_up_context p.1))
    (dataset_instances [sample_row; sample_row_follow_up])
    (((λ f, "Cake " +:+ newline +:+ " Steps " +:+ newline +:+ "Heat the oven. "
              +:+ newline +:+ "Add the " +:+ f +:+ " now.")
        <$> ["salt"; "brown sugar"; "water"; ""; "eggs"])
     ++ ((λ f, "Cake " +:+ newline +:+ " Steps " +:+ newline
                 +:+ "Heat the oven. " +:+ newline +:+ "Stir the " +:+ f
                 +:+ " well. " +:+ newline +:+ "Serve warm.")
           <$> ["mix"; "batter"; "dough"; "soup"; "tea"])).
Proof.
  apply (context_assembly [sample_row; sample_row_follow_up] PyNone
           (dataset_ids [sample_row; sample_row_follow_up])).
  reflexivity.
Defined.

(** C8 as worded fails: for the sample row (no follow-up context) the text
    built for the first filler has a space before each newline and one after
    the first, so it is not the four segments joined by newlines. *)
Lemma context_not_joined_by_bare_newlines :
  ∃ ids text texts,
    retrieve_instances_from_dataset [sample_row] true PyNone
      = Ok (ids, text :: texts)
    ∧ sent_with_filler (fillna_row sample_row) 1 PyNone = Ok "Add the salt now."
    ∧ text ≠ newline_joined_context (fillna_row sample_row) "Add the salt now.".
Proof.
  do 3 eexists. split; [reflexivity |]. split; [reflexivity |].
  vm_compute. discriminate.
Qed.

(** C2: the row whose previous context is "(...) Heat the oven." gives,
    with context enabled, five texts that all still hold the substring
    "(...)": the result of [context.replace("(...)", "")] is dropped. *)
Theorem ellipsis_placeholder_kept :
  retrieve_instances_from_dataset [sample_row_ellipsis] true PyNone
  = Ok (["9_1"; "9_2"; "9_3"; "9_4"; "9_5"],
        (λ f, "Cake " +:+ newline +:+ " Steps " +:+ newline
                +:+ "(...) Heat the oven. " +:+ newline
                +:+ "Add the " +:+ f +:+ " now.")
          <$> ["salt"; "brown sugar"; "water"; "milk"; "eggs"])
  ∧ Forall (λ text, contains "(...)" text = true)
      ((λ f, "Cake " +:+ newline +:+ " Steps " +:+ newline
               +:+ "(...) Heat the oven. " +:+ newline
               +:+ "Add the " +:+ f +:+ " now.")
         <$> ["salt"; "brown sugar"; "water"; "milk"; "eggs"]).
Proof. split; [reflexivity |]. repeat constructor. Qed.

(** ** str.replace *)

Section Replace.
Variables old new : string.

Lemma replace_go_skip x rest :
  replace_go old new (String.length x) (x +:+ rest) = replace_go old new 0 rest.
Proof. induction x as [|c x IH]; simpl; [by destruct rest | done]. Qed.

(** An occurrence at the head is replaced and the scan resumes after it. *)
Lemma replace_go_occurrence rest :
  old ≠ "" →
  replace_go old new 0 (old +:+ rest) = new +:+ replace_go old new 0 rest.
Proof.
  destruct old as [|a o] eqn:Hold; [done |]. intros _.
  change (String a o +:+ rest) with (String a (o +:+ rest)).
  cbn [replace_go].
  change (String a (o +:+ rest)) with (String a o +:+ rest).
  rewrite startswith_refl_app. cbn [String.length].
  by rewrite Nat.sub_succ, Nat.sub_0_r, <- Hold, replace_go_skip.
Qed.

(** A stretch in which no occurrence starts is copied. *)
Lemma replace_go_no_start p rest :
  no_start old p rest = true →
  replace_go old new 0 (p +:+ rest) = p +:+ replace_go old new 0 rest.
Proof.
  induction p as [|c p IH]; [done |].
  cbn [no_start]. intros [Hc Hp]%andb_prop.
  apply negb_true_iff in Hc.
  change (String c p +:+ rest) with (String c (p +:+ rest)) in *.
  cbn [replace_go]. rewrite Hc. simpl. by rewrite IH.
Qed.

Lemma no_start_end p : contains old p = false → no_start old p "" = true.
Proof.
  induction p as [|c p IH]; [done |].
  cbn [contains no_start]. intros [Hc Hp]%orb_false_elim.
  by rewrite str_app_nil_r, Hc, IH.
Qed.

Lemma replace_go_unchanged s : contains old s = false → replace_go old new 0 s = s.
Proof.
  intros Hs%no_start_end%replace_go_no_start.
  rewrite str_app_nil_r in Hs. rewrite Hs. simpl. apply str_app_nil_r.
Qed.

End Replace.

(** [startswith] reads no further than the length of the prefix. *)
Lemma startswith_short p a x :
  String.length p ≤ String.length a → startswith p (a +:+ x) = startswith p a.
Proof.
  revert a. induction p as [|c p IH]; intros a; [done |].
  destruct a as [|d a]; simpl; [lia |]. intros Hlen.
  destruct (Ascii.eqb c d); [|done]. apply IH. lia.
Qed.

(** A prefix cannot reach over a character it does not contain. *)
Lemma startswith_sep p u c rest :
  p ≠ "" →
  contains (String c "") p = false →
  startswith p (u +:+ String c rest) = startswith p u.
Proof.
  revert u. induction p as [|a p IH]; [done |]. intros u _ Hc.
  cbn [contains startswith] in Hc. apply orb_false_elim in Hc as [Ha Hp].
  destruct u as [|b u]; simpl.
  - rewrite Ascii.eqb_sym. by destruct (Ascii.eqb c a).
  - destruct (Ascii.eqb a b); [|done].
    destruct p as [|a' p]; [done |]. by apply IH.
Qed.

Lemma join_cons sep t (l : list string) :
  l ≠ [] → join sep (t :: l) = t +:+ sep +:+ join sep l.
Proof. by destruct l. Qed.

(** ** The blank and its neighbours *)

Section Blank.
Variable new : string.

(** A piece that ends where an occurrence of the blank begins: the scan
    meets no occurrence before that one exactly when the piece followed by
    five underscores holds none. *)
Lemma no_start_piece p rest :
  contains blank (p +:+ "_____") = false →
  no_start blank p (blank +:+ rest) = true.
Proof.
  induction p as [|c p IH]; [done |].
  change (String c p +:+ "_____") with (String c (p +:+ "_____")).
  cbn [contains no_start]. intros [Hc Hp]%orb_false_elim.
  rewrite IH by done.
  change (String c (p +:+ "_____")) with (String c p +:+ "_____") in Hc.
  replace (String c p +:+ blank +:+ rest)
    with ((String c p +:+ "_____") +:+ "_" +:+ rest)
    by (by rewrite str_app_assoc).
  rewrite startswith_short, Hc; [done |].
  rewrite str_length_app. simpl. lia.
Qed.

(** A token without the blank, followed by a space. *)
Lemma no_start_token t rest :
  contains blank t = false → no_start blank t (String " " rest) = true.
Proof.
  induction t as [|c t IH]; [done |].
  cbn [contains no_start]. intros [Hc Hp]%orb_false_elim.
  by rewrite startswith_sep, Hc, IH.
Qed.

Lemma replace_go_token t rest :
  contains blank t = false →
  replace_go blank new 0 (t +:+ " " +:+ rest)
  = t +:+ " " +:+ replace_go blank new 0 rest.
Proof.
  intros Ht. change (" " +:+ rest) with (String " " rest).
  by rewrite replace_go_no_start by by apply no_start_token.
Qed.

Lemma replace_go_lead pre rest :
  Forall (λ t, contains blank t = false) pre →
  replace_go blank new 0 (lead pre +:+ rest)
  = lead pre +:+ replace_go blank new 0 rest.
Proof.
  induction 1 as [|t pre Ht _ IH]; [done |].
  cbn [lead]. rewrite !str_app_assoc.
  by rewrite replace_go_token, IH.
Qed.

Lemma replace_go_trail post :
  Forall (λ t, contains blank t = false) post →
  replace_go blank new 0 (trail post) = trail post.
Proof.
  induction 1 as [|t post Ht Hpost IH]; [done |].
  cbn [trail]. change (" " +:+ t +:+ trail post) with (String " " (t +:+ trail post)).
  cbn [replace_go]. change (startswith blank (String " " _)) with false.
  cbv iota. f_equal.
  destruct post as [|t' post].
  - simpl. rewrite str_app_nil_r. by apply replace_go_unchanged.
  - rewrite <- IH at 2. cbn [trail].
    change (" " +:+ t' +:+ trail post) with (String " " (t' +:+ trail post)).
    by rewrite replace_go_no_start by by apply no_start_token.
Qed.

(** Every occurrence is replaced: a string cut into pieces at the
    occurrences the scan finds becomes the pieces joined by [new]. *)
Lemma py_replace_pieces pieces last :
  Forall (λ p, contains blank (p +:+ "_____") = false) pieces →
  contains blank last = false →
  py_replace blank new (join blank (pieces ++ [last]))
  = join new (pieces ++ [last]).
Proof.
  intros Hpieces Hlast. unfold py_replace.
  change (String.eqb blank "") with false. cbv iota.
  induction Hpieces as [|p pieces Hp _ IH].
  - by apply replace_go_unchanged.
  - rewrite <- app_comm_cons, !join_cons by by destruct pieces.
    rewrite replace_go_no_start by by apply no_start_piece.
    by rewrite replace_go_occurrence, IH.
Qed.
End Blank.

Lemma startswith_split p s : startswith p s = true → ∃ rest, s = p +:+ rest.
Proof.
  revert s. induction p as [|a p IH]; intros s; [by exists s |].
  destruct s as [|b s]; simpl; [done |].
  destruct (Ascii.eqb_spec a b) as [->|_]; [|done].
  intros [rest ->]%IH. by exists rest.
Qed.

(** The first occurrence of the blank, as the scan meets it. *)
Lemma first_blank s :
  contains blank s = true →
  ∃ p rest, s = p +:+ blank +:+ rest ∧ contains blank (p +:+ "_____") = false.
Proof.
  induction s as [|c s IH]; [done |].
  cbn [contains]. destruct (startswith blank (String c s)) eqn:Hstart.
  - intros _. apply startswith_split in Hstart as [rest ->].
    by exists "", rest.
  - rewrite orb_false_l. intros (p & rest & -> & Hp)%IH.
    exists (String c p), rest. split; [done |].
    change (String c p +:+ "_____") with (String c (p +:+ "_____")).
    cbn [contains]. rewrite Hp, orb_false_r.
    change (String c (p +:+ blank +:+ rest))
      with (String c p +:+ blank +:+ rest) in Hstart.
    replace (String c p +:+ blank +:+ rest)
      with ((String c p +:+ "_____") +:+ "_" +:+ rest) in Hstart
      by (by rewrite str_app_assoc).
    rewrite startswith_short in Hstart; [done |].
    rewrite str_length_app. simpl. lia.
Qed.

(** Every string is cut into pieces by the occurrences the scan finds. *)
Lemma blank_pieces s :
  ∃ pieces last,
    s = join blank (pieces ++ [last])
    ∧ Forall (λ p, contains blank (p +:+ "_____") = false) pieces
    ∧ contains blank last = false.
Proof.
  remember (String.length s) as n eqn:Hn.
  revert s Hn. induction (lt_wf n) as [n _ IH]. intros s ->.
  destruct (contains blank s) eqn:Hs.
  - apply first_blank in Hs as (p & rest & -> & Hp).
    destruct (IH (String.length rest)) with (s := rest)
      as (pieces & last & -> & Hpieces & Hlast); [|done |].
    { rewrite !str_length_app. simpl. lia. }
    exists (p :: pieces), last. split; [|by split; [constructor |]].
    by rewrite <- app_comm_cons, join_cons by by destruct pieces.
  - by exists [], s.
Qed.

Lemma join_trail x post : join " " (x :: post) = x +:+ trail post.
Proof.
  revert x. induction post as [|t post IH]; intros x.
  - simpl. by rewrite str_app_nil_r.
  - rewrite join_cons by done. by rewrite IH.
Qed.

(** The joined tokens around token [x]. *)
Lemma join_lead_trail x pre post :
  join " " (pre ++ x :: post) = lead pre +:+ x +:+ trail post.
Proof.
  induction pre as [|t pre IH]; [apply join_trail |].
  rewrite <- app_comm_cons, join_cons by by destruct pre.
  cbn [lead]. by rewrite IH, !str_app_assoc.
Qed.

(** ** Plain replacement of the blank *)



(** ** Markers and plain replacement *)

(** C3 (amended): for a sentence that is its own tokens joined by single
    spaces, with one blank token and no other token holding the substring
    "______", and for a pair of marker strings, [insert_filler_markers]
    returns the tokens joined by single spaces with the start marker, the
    filler and the end marker in place of the blank token; the start marker
    with the space after it and the end marker with the space before it are
    found in this output at their places, and cutting them out leaves exactly
    the sentence with "______" replaced by the filler. *)
Theorem markers_round_trip sentence filler start_marker end_marker pre post :
  py_split sentence = pre ++ blank :: post →
  join " " (py_split sentence) = sentence →
  Forall (λ t, contains blank t = false) (pre ++ post) →
  ∃ out,
    insert_filler_markers sentence filler
      (PyTuple [PyStr start_marker; PyStr end_marker]) = Ok out
    ∧ out = join " " (pre ++ start_marker :: filler :: end_marker :: post)
    ∧ strip_markers sentence filler start_marker end_marker out
      = Some (py_replace blank filler sentence).
Proof.
  intros Hsplit Hnorm [Hpre Hpost]%Forall_app.
  assert (blank ∉ pre) as Hnotin.
  { intros Hin. rewrite Forall_forall in Hpre. apply Hpre in Hin.
    by rewrite contains_self in Hin. }
  eexists. split; [by apply insert_filler_markers_tokens |].
  split; [done |].
  unfold strip_markers.
  rewrite Hsplit, find_index_app by done. cbn [default from_option id].
  rewrite take_app_length, join_lead_trail. cbn [trail].
  (* the start marker and the space after it *)
  replace (lead pre +:+ start_marker +:+ " " +:+ filler +:+ " " +:+ end_marker
             +:+ trail post)
    with (lead pre +:+ (start_marker +:+ " ")
            +:+ filler +:+ " " +:+ end_marker +:+ trail post)
    by (by rewrite !str_app_assoc).
  rewrite cut_at_app. cbn [mbind option_bind].
  (* the end marker and the space before it *)
  replace (lead pre +:+ filler +:+ " " +:+ end_marker +:+ trail post)
    with ((lead pre +:+ filler) +:+ (" " +:+ end_marker) +:+ trail post)
    by (by rewrite !str_app_assoc).
  replace (String.length (lead pre) + String.length filler)
    with (String.length (lead pre +:+ filler))
    by (by rewrite str_length_app).
  rewrite cut_at_app, str_app_assoc. f_equal.
  (* the plain replacement *)
  rewrite <- Hnorm, Hsplit, join_lead_trail.
  unfold py_replace. change (String.eqb blank "") with false. cbv iota.
  rewrite replace_go_lead by done.
  by rewrite replace_go_occurrence, replace_go_trail.
Qed.

Lemma markers_round_trip_witness :
  ∃ out,
    insert_filler_markers "This is a ______ example." "really simple"
      (PyTuple [PyStr "[F]"; PyStr "[/F]"]) = Ok out
    ∧ out = join " " (["This"; "is"; "a"] ++ "[F]" :: "really simple" :: "[/F]"
                        :: ["example."])
    ∧ strip_markers "This is a ______ example." "really simple" "[F]" "[/F]" out
      = Some (py_replace blank "really simple" "This is a ______ example.").
Proof.
  apply (markers_round_trip "This is a ______ example." "really simple"
           "[F]" "[/F]" ["This"; "is"; "a"] ["example."]).
  - reflexivity.
  - reflexivity.
  - repeat constructor.
Defined.

(** C3 as worded fails.  With two spaces after "Add", the sentence has one
    blank token, the marked sentence is single-spaced and stays so once the
    markers are cut out, while plain replacement keeps the two spaces.  With
    a second blank inside the token "(______)." the sentence still has one
    blank token, the marked sentence keeps the second blank and plain
    replacement fills it.  In both outputs the markers are found at their
    places and cut out. *)
Lemma markers_round_trip_fails :
  (py_split "Add  the ______ now." = ["Add"; "the"; "______"; "now."]
   ∧ insert_filler_markers "Add  the ______ now." "salt" F_markers
     = Ok "Add the [F] salt [/F] now."
   ∧ strip_markers "Add  the ______ now." "salt" "[F]" "[/F]"
       "Add the [F] salt [/F] now." = Some "Add the salt now."
   ∧ py_replace blank "salt" "Add  the ______ now." = "Add  the salt now."
   ∧ ¬ ∃ out,
         insert_filler_markers "Add  the ______ now." "salt" F_markers = Ok out
         ∧ strip_markers "Add  the ______ now." "salt" "[F]" "[/F]" out
           = Some (py_replace blank "salt" "Add  the ______ now."))
  ∧ (py_split "Mix ______ and (______)." = ["Mix"; "______"; "and"; "(______)."]
     ∧ insert_filler_markers "Mix ______ and (______)." "salt" F_markers
       = Ok "Mix [F] salt [/F] and (______)."
     ∧ strip_markers "Mix ______ and (______)." "salt" "[F]" "[/F]"
         "Mix [F] salt [/F] and (______)." = Some "Mix salt and (______)."
     ∧ py_replace blank "salt" "Mix ______ and (______)." = "Mix salt and (salt)."
     ∧ ¬ ∃ out,
           insert_filler_markers "Mix ______ and (______)." "salt" F_markers
             = Ok out
           ∧ strip_markers "Mix ______ and (______)." "salt" "[F]" "[/F]" out
             = Some (py_replace blank "salt" "Mix ______ and (______).")).
Proof.
  split; (do 4 (split; [reflexivity |]));
    intros (out & Hout & Heq); vm_compute in Hout; injection Hout as <-;
    vm_compute in Heq; discriminate.
Qed.

(** The cut fails on an output in which other text stands in place of the
    markers. *)
Lemma strip_markers_checks_markers :
  strip_markers "This is a ______ example." "really simple" "[F]" "[/F]"
    "This is a ### really simple #### example." = None
  ∧ strip_markers "This is a ______ example." "really simple" "[F]" "[/F]"
      "This is a [F] really simple #### example." = None.
Proof. split; reflexivity. Qed.

(** ** merge_data *)

Lemma label_code_ordinal label code :
  label_code label = Ok code ↔ ordinal_code label code.
Proof.
  unfold label_code. split.
  - destruct (String.eqb_spec label "IMPLAUSIBLE") as [->|_];
      [intros [= <-]; constructor |].
    destruct (String.eqb_spec label "NEUTRAL") as [->|_];
      [intros [= <-]; constructor |].
    destruct (String.eqb_spec label "PLAUSIBLE") as [->|_];
      [intros [= <-]; constructor | done].
  - by destruct 1.
Qed.

Lemma label_code_invalid label :
  label ∉ ["IMPLAUSIBLE"; "NEUTRAL"; "PLAUSIBLE"] →
  label_code label = Raise (invalid_label_error label).
Proof.
  rewrite !not_elem_of_cons. intros (H0 & H1 & H2 & _).
  unfold label_code.
  by rewrite (proj2 (String.eqb_neq _ _) H0), (proj2 (String.eqb_neq _ _) H1),
    (proj2 (String.eqb_neq _ _) H2).
Qed.

(** The label table as a dictionary: an id is a key exactly when some row of
    the table starts with it. *)
Lemma build_label_dict_None labels_df id :
  build_label_dict labels_df !! id = None ↔ id ∉ labels_df.*1.
Proof.
  unfold build_label_dict.
  assert (∀ d : gmap string string,
            foldl (λ d '(id, label), <[id := label]> d) d labels_df !! id = None
            ↔ d !! id = None ∧ id ∉ labels_df.*1) as Hgen.
  { induction labels_df as [|[k v] l IH]; intros d; simpl.
    - split; [intros ?; split; [done | apply not_elem_of_nil] | by intros []].
    - rewrite IH, not_elem_of_cons, lookup_insert_None. intuition. }
  rewrite Hgen, lookup_empty. intuition.
Qed.

Section MergeLoop.
Variable label_dict : gmap string string.

Lemma merge_step_code_of_id df id_elem instance :
  merge_step label_dict df (id_elem, instance)
  = code ← code_of_id label_dict id_elem;
    Ok (MergedDf (col_ids df ++ [id_elem]) (col_text df ++ [instance])
          (col_label df ++ [code])).
Proof.
  unfold merge_step, code_of_id.
  by destruct (dict_getitem label_dict id_elem).
Qed.

(** The merge loop as a [mapM] over the ids. *)
Lemma merge_loop items df :
  foldM (merge_step label_dict) df items
  = codes ← mapM (code_of_id label_dict) items.*1;
    Ok (MergedDf (col_ids df ++ items.*1) (col_text df ++ items.*2)
          (col_label df ++ codes)).
Proof.
  revert df. induction items as [|[id_elem instance] items IH];
    intros [ids text labels]; cbn [foldM].
  - simpl. by rewrite !app_nil_r.
  - rewrite merge_step_code_of_id, fmap_cons. cbn [mapM fst col_ids col_text col_label].
    destruct (code_of_id label_dict id_elem) as [code|]; simpl; [|done].
    rewrite IH. simpl.
    destruct (mapM _ _); simpl; [|done].
    by rewrite <- !app_assoc.
Qed.

Lemma code_of_id_Ok id_elem code :
  code_of_id label_dict id_elem = Ok code
  ↔ ∃ label, label_dict !! id_elem = Some label ∧ ordinal_code label code.
Proof.
  unfold code_of_id, dict_getitem.
  destruct (label_dict !! id_elem) as [label|]; simpl.
  - rewrite label_code_ordinal. split; [eauto |].
    by intros (? & [= <-] & ?).
  - split; [done | by intros (? & ? & _)].
Qed.

(** The first id that cannot be converted decides the outcome. *)
Lemma mapM_code_first_failure ids1 id_elem ids2 e :
  Forall (λ i, ∃ label code,
                 label_dict !! i = Some label ∧ ordinal_code label code) ids1 →
  code_of_id label_dict id_elem = Raise e →
  mapM (code_of_id label_dict) (ids1 ++ id_elem :: ids2) = Raise e.
Proof.
  intros Hok Hfail. rewrite mapM_app.
  destruct (mapM_total (code_of_id label_dict) ids1) as [codes ->].
  - eapply Forall_impl; [exact Hok |].
    intros i (label & code & Hi & Hcode). exists code.
    apply code_of_id_Ok. eauto.
  - simpl. by rewrite Hfail.
Qed.
End MergeLoop.

Section MergeData.
Variables (instances_df : list raw_row) (labels_df : list (string * string)).
Variables (use_context : bool) (filler_markers : pyval).

(** Once the instances are built, merging is the conversion of the label
    of every id, in order. *)
Lemma merge_data_codes ids texts :
  retrieve_instances_from_dataset instances_df use_context filler_markers
    = Ok (ids, texts) →
  merge_data instances_df labels_df use_context filler_markers
  = codes ← mapM (code_of_id (build_label_dict labels_df)) ids;
    Ok (MergedDf ids texts codes).
Proof.
  intros Hret. unfold merge_data. rewrite Hret. simpl.
  pose proof (retrieve_instances_lengths _ _ _ _ _ Hret) as Hlen.
  rewrite merge_loop. simpl.
  by rewrite fst_zip, snd_zip by lia.
Qed.

Lemma merge_data_Raise e :
  retrieve_instances_from_dataset instances_df use_context filler_markers
    = Raise e →
  merge_data instances_df labels_df use_context filler_markers = Raise e.
Proof. intros Hret. unfold merge_data. by rewrite Hret. Qed.

(** The call returns exactly when the instances can be built and every id
    has a label of the three-class vocabulary. *)
Lemma merge_data_Ok df :
  merge_data instances_df labels_df use_context filler_markers = Ok df
  ↔ ∃ texts,
      retrieve_instances_from_dataset instances_df use_context filler_markers
        = Ok (col_ids df, texts)
      ∧ col_text df = texts
      ∧ Forall2 (λ id_elem code,
                   ∃ label, build_label_dict labels_df !! id_elem = Some label
                            ∧ ordinal_code label code)
          (col_ids df) (col_label df).
Proof.
  destruct (retrieve_instances_from_dataset instances_df use_context
              filler_markers) as [[ids texts]|e] eqn:Hret.
  - rewrite (merge_data_codes ids texts Hret), bind_Ok.
    setoid_rewrite mapM_Ok. split.
    + intros (codes & Hcodes & [= <-]). simpl. exists texts.
      split; [done |]. split; [done |].
      eapply Forall2_impl; [exact Hcodes |].
      intros ??. by rewrite code_of_id_Ok.
    + destruct df as [ids' texts' codes]. simpl.
      intros (? & [= -> <-] & -> & Hcodes).
      exists codes. split; [|done].
      eapply Forall2_impl; [exact Hcodes |].
      intros ??. by rewrite code_of_id_Ok.
  - rewrite (merge_data_Raise e Hret). split; [done |].
    by intros (? & ? & _).
Qed.
End MergeData.

Lemma mapM_Ok_elem {A B} (f : A → result B) l bs x :
  mapM f l = Ok bs → x ∈ l → ∃ b, f x = Ok b.
Proof.
  intros Hall%mapM_Ok Hx. revert x Hx.
  induction Hall as [|a b l bs Hab _ IH]; intros x Hx.
  - by apply elem_of_nil in Hx.
  - apply elem_of_cons in Hx as [->|Hx]; eauto.
Qed.

(** C4: the [if]/[elif] chain converts exactly IMPLAUSIBLE to 0, NEUTRAL
    to 1 and PLAUSIBLE to 2.  When every id the instance builder produces has
    a label of these three, [merge_data] returns the table of these ids,
    their texts and the codes of their labels; a table it returns is of this
    form: its ids are the ids of the instance builder, its texts their
    texts, and its label column holds, id by id, the code of the label
    looked up for it.  When the loop reaches an id whose label is none of the
    three, [merge_data] raises the [ValueError]
    "Label <label> is not a valid plausibility class.". *)
Theorem merge_data_label_codes instances_df labels_df use_context filler_markers :
  (∀ label code, label_code label = Ok code ↔ ordinal_code label code)
  ∧ (∀ ids texts codes,
       retrieve_instances_from_dataset instances_df use_context filler_markers
         = Ok (ids, texts) →
       Forall2 (λ id_elem code,
                  ∃ label, build_label_dict labels_df !! id_elem = Some label
                           ∧ ordinal_code label code)
         ids codes →
       merge_data instances_df labels_df use_context filler_markers
       = Ok (MergedDf ids texts codes))
  ∧ (∀ df,
       merge_data instances_df labels_df use_context filler_markers = Ok df →
       col_ids df = dataset_ids instances_df
       ∧ retrieve_instances_from_dataset instances_df use_context filler_markers
         = Ok (col_ids df, col_text df)
       ∧ Forall2 (λ id_elem code,
                    ∃ label, build_label_dict labels_df !! id_elem = Some label
                             ∧ ordinal_code label code)
           (col_ids df) (col_label df))
  ∧ (∀ ids texts ids1 id_elem ids2 label,
       retrieve_instances_from_dataset instances_df use_context filler_markers
         = Ok (ids, texts) →
       ids = ids1 ++ id_elem :: ids2 →
       Forall (λ i, ∃ l c, build_label_dict labels_df !! i = Some l
                           ∧ ordinal_code l c) ids1 →
       build_label_dict labels_df !! id_elem = Some label →
       label ∉ ["IMPLAUSIBLE"; "NEUTRAL"; "PLAUSIBLE"] →
       merge_data instances_df labels_df use_context filler_markers
       = Raise (ValueError [Lit "Label "; Str (PyStr label);
                            Lit " is not a valid plausibility class."])).
Proof.
  split; [apply label_code_ordinal |]. split; [|split].
  - intros ids texts codes Hret Hcodes.
    rewrite (merge_data_codes _ _ _ _ _ _ Hret).
    assert (mapM (code_of_id (build_label_dict labels_df)) ids = Ok codes)
      as ->; [|done].
    apply mapM_Ok. eapply Forall2_impl; [exact Hcodes |].
    intros ??. by rewrite code_of_id_Ok.
  - intros df (texts & Hret & <- & Hcodes)%merge_data_Ok.
    pose proof Hret as [Hids _]%retrieve_instances_from_dataset_Ok.
    done.
  - intros ids texts ids1 id_elem ids2 label Hret -> Hok Hlabel Hinvalid.
    rewrite (merge_data_codes _ _ _ _ _ _ Hret).
    erewrite mapM_code_first_failure; [done | exact Hok |].
    unfold code_of_id, dict_getitem. rewrite Hlabel. simpl.
    by apply label_code_invalid.
Qed.

Lemma merge_data_label_codes_witness :
  merge_data [sample_row] sample_labels false PyNone
    = Ok (MergedDf ["7_1"; "7_2"; "7_3"; "7_4"; "7_5"]
            ["Add the salt now."; "Add the brown sugar now.";
             "Add the water now."; "Add the  now."; "Add the eggs now."]
            [2; 1; 0; 1; 2]%Z)
  ∧ (["7_1"; "7_2"; "7_3"; "7_4"; "7_5"] = dataset_ids [sample_row]
     ∧ retrieve_instances_from_dataset [sample_row] false PyNone
       = Ok (["7_1"; "7_2"; "7_3"; "7_4"; "7_5"],
             ["Add the salt now."; "Add the brown sugar now.";
              "Add the water now."; "Add the  now."; "Add the eggs now."])
     ∧ Forall2 (λ id_elem code,
                  ∃ label, build_label_dict sample_labels !! id_elem = Some label
                           ∧ ordinal_code label code)
         ["7_1"; "7_2"; "7_3"; "7_4"; "7_5"] [2; 1; 0; 1; 2]%Z)
  ∧ merge_data [sample_row] sample_labels_maybe false PyNone
    = Raise (ValueError [Lit "Label "; Str (PyStr "MAYBE");
                         Lit " is not a valid plausibility class."]).
Proof.
  destruct (merge_data_label_codes [sample_row] sample_labels false PyNone)
    as (_ & Hvalid & Hreturned & _).
  destruct (merge_data_label_codes [sample_row] sample_labels_maybe false PyNone)
    as (_ & _ & _ & Hinvalid).
  assert (Hret :
    retrieve_instances_from_dataset [sample_row] false PyNone
    = Ok (["7_1"; "7_2"; "7_3"; "7_4"; "7_5"],
          ["Add the salt now."; "Add the brown sugar now.";
           "Add the water now."; "Add the  now."; "Add the eggs now."]))
    by reflexivity.
  assert (Hok :
    merge_data [sample_row] sample_labels false PyNone
    = Ok (MergedDf ["7_1"; "7_2"; "7_3"; "7_4"; "7_5"]
            ["Add the salt now."; "Add the brown sugar now.";
             "Add the water now."; "Add the  now."; "Add the eggs now."]
            [2; 1; 0; 1; 2]%Z)).
  { apply (Hvalid _ _ [2; 1; 0; 1; 2]%Z Hret).
    apply Forall2_cons_2;
      [exists "PLAUSIBLE"; split; [reflexivity | constructor] |].
    apply Forall2_cons_2;
      [exists "NEUTRAL"; split; [reflexivity | constructor] |].
    apply Forall2_cons_2;
      [exists "IMPLAUSIBLE"; split; [reflexivity | constructor] |].
    apply Forall2_cons_2;
      [exists "NEUTRAL"; split; [reflexivity | constructor] |].
    apply Forall2_cons_2;
      [exists "PLAUSIBLE"; split; [reflexivity | constructor] |].
    apply Forall2_nil_2. }
  split; [exact Hok |]. split; [exact (Hreturned _ Hok) |].
  apply (Hinvalid _ _ ["7_1"] "7_2" ["7_3"; "7_4"; "7_5"] "MAYBE" Hret).
  - reflexivity.
  - apply Forall_cons_2; [|apply Forall_nil_2].
    exists "PLAUSIBLE", 2%Z. split; [reflexivity | constructor].
  - reflexivity.
  - intros Hin.
    repeat (apply elem_of_cons in Hin as [Hin|Hin]; [discriminate Hin |]).
    by apply elem_of_nil in Hin.
Defined.

(** C9: when an id produced by the instance builder is not an id of the
    labels table, [merge_data] raises and returns no table; it raises
    [KeyError] with that id when the loop reaches it; and a table is returned
    only if every id of the instance builder is an id of the labels table. *)
Theorem merge_data_missing_label instances_df labels_df use_context filler_markers :
  (∀ ids texts id_elem,
     retrieve_instances_from_dataset instances_df use_context filler_markers
       = Ok (ids, texts) →
     id_elem ∈ ids →
     id_elem ∉ labels_df.*1 →
     ∃ e, merge_data instances_df labels_df use_context filler_markers = Raise e)
  ∧ (∀ ids texts ids1 id_elem ids2,
       retrieve_instances_from_dataset instances_df use_context filler_markers
         = Ok (ids, texts) →
       ids = ids1 ++ id_elem :: ids2 →
       Forall (λ i, ∃ l c, build_label_dict labels_df !! i = Some l
                           ∧ ordinal_code l c) ids1 →
       id_elem ∉ labels_df.*1 →
       merge_data instances_df labels_df use_context filler_markers
       = Raise (KeyError id_elem))
  ∧ (∀ df,
       merge_data instances_df labels_df use_context filler_markers = Ok df →
       col_ids df = dataset_ids instances_df
       ∧ ∀ id_elem, id_elem ∈ dataset_ids instances_df → id_elem ∈ labels_df.*1).
Proof.
  split; [|split].
  - intros ids texts id_elem Hret Hin Hmissing%build_label_dict_None.
    rewrite (merge_data_codes _ _ _ _ _ _ Hret).
    destruct (mapM _ ids) as [codes|e] eqn:Hcodes; simpl; [|by eexists].
    destruct (mapM_Ok_elem _ _ _ _ Hcodes Hin) as [code Hcode].
    apply code_of_id_Ok in Hcode as (label & Hlabel & _). congruence.
  - intros ids texts ids1 id_elem ids2 Hret -> Hok Hmissing%build_label_dict_None.
    rewrite (merge_data_codes _ _ _ _ _ _ Hret).
    erewrite mapM_code_first_failure; [done | exact Hok |].
    unfold code_of_id, dict_getitem. by rewrite Hmissing.
  - intros df (texts & Hret & _ & Hcodes)%merge_data_Ok.
    pose proof Hret as [Hids _]%retrieve_instances_from_dataset_Ok.
    split; [done |]. rewrite <- Hids. intros id_elem Hin.
    destruct (decide (id_elem ∈ labels_df.*1)) as [|Hmissing]; [done |].
    apply build_label_dict_None in Hmissing.
    apply list_elem_of_lookup in Hin as [i Hi].
    destruct (Forall2_lookup_l _ _ _ _ _ Hcodes Hi)
      as (code & _ & label & Hlabel & _).
    congruence.
Qed.

Lemma merge_data_missing_label_witness :
  (∃ e, merge_data [sample_row] sample_labels_missing false PyNone = Raise e)
  ∧ merge_data [sample_row] sample_labels_missing false PyNone
    = Raise (KeyError "7_4")
  ∧ ∀ id_elem, id_elem ∈ dataset_ids [sample_row] → id_elem ∈ sample_labels.*1.
Proof.
  assert (Hret :
    retrieve_instances_from_dataset [sample_row] false PyNone
    = Ok (["7_1"; "7_2"; "7_3"; "7_4"; "7_5"],
          ["Add the salt now."; "Add the brown sugar now.";
           "Add the water now."; "Add the  now."; "Add the eggs now."]))
    by reflexivity.
  assert (Hmissing : "7_4" ∉ sample_labels_missing.*1).
  { intros Hin.
    repeat (apply elem_of_cons in Hin as [Hin|Hin]; [discriminate Hin |]).
    by apply elem_of_nil in Hin. }
  destruct (merge_data_missing_label [sample_row] sample_labels_missing
              false PyNone) as (Hsome & Hfirst & _).
  destruct (merge_data_missing_label [sample_row] sample_labels false PyNone)
    as (_ & _ & Hall).
  split; [|split].
  - apply (Hsome _ _ "7_4" Hret); [|exact Hmissing].
    do 3 right. left.
  - apply (Hfirst _ _ ["7_1"; "7_2"; "7_3"] "7_4" ["7_5"] Hret);
      [reflexivity | | exact Hmissing].
    apply Forall_cons_2;
      [exists "PLAUSIBLE", 2%Z; split; [reflexivity | constructor] |].
    apply Forall_cons_2;
      [exists "NEUTRAL", 1%Z; split; [reflexivity | constructor] |].
    apply Forall_cons_2;
      [exists "IMPLAUSIBLE", 0%Z; split; [reflexivity | constructor] |].
    apply Forall_nil_2.
  - apply (Hall (MergedDf ["7_1"; "7_2"; "7_3"; "7_4"; "7_5"]
                   ["Add the salt now."; "Add the brown sugar now.";
                    "Add the water now."; "Add the  now."; "Add the eggs now."]
                   [2; 1; 0; 1; 2]%Z)).
    reflexivity.
Defined.

(** * Further properties *)

(** ** Splitting and joining *)

Lemma has_space_app s t : has_space (s +:+ t) = has_space s || has_space t.
Proof.
  induction s as [|c s IH]; simpl; [done |].
  by rewrite IH, orb_assoc.
Qed.

Lemma str_app_empty s t : s +:+ t = "" → s = "" ∧ t = "".
Proof. by destruct s. Qed.

Lemma eqb_app_char tok c : String.eqb (tok +:+ String c "") "" = false.
Proof. by destruct tok. Qed.

Lemma split_go_tokens tok s :
  has_space tok = false →
  Forall (λ t, t ≠ "" ∧ has_space t = false) (split_go tok s).
Proof.
  revert tok. induction s as [|c s IH]; intros tok Htok; simpl.
  - destruct (String.eqb_spec tok ""); [constructor |].
    by repeat constructor.
  - destruct (py_isspace c) eqn:Hc.
    + destruct (String.eqb_spec tok ""); [by apply IH |].
      constructor; [done | by apply IH].
    + apply IH. rewrite has_space_app, Htok. simpl. by rewrite Hc.
Qed.

(** X1: every token [str.split()] returns is non-empty and holds no
    whitespace character. *)
Theorem py_split_tokens s :
  Forall (λ t, t ≠ "" ∧ has_space t = false) (py_split s).
Proof. by apply split_go_tokens. Qed.

(** Splitting across a space: the token being read ends there. *)
Lemma split_go_app_space tok a b :
  split_go tok (a +:+ String " " b) = split_go tok a ++ py_split b.
Proof.
  revert tok. induction a as [|c a IH]; intros tok; simpl.
  - by destruct (String.eqb tok "").
  - destruct (py_isspace c); [|apply IH].
    destruct (String.eqb tok ""); [apply IH |].
    by rewrite IH.
Qed.

Lemma py_split_app_space a b :
  py_split (a +:+ String " " b) = py_split a ++ py_split b.
Proof. apply split_go_app_space. Qed.

(** A string without whitespace is read into the current token. *)
Lemma split_go_no_space tok t :
  has_space t = false →
  split_go tok t = if String.eqb (tok +:+ t) "" then [] else [tok +:+ t].
Proof.
  revert tok. induction t as [|c t IH]; intros tok; simpl.
  - by rewrite str_app_nil_r.
  - intros [Hc Ht]%orb_false_elim. rewrite Hc, IH by done.
    by rewrite str_app_assoc.
Qed.

Lemma py_split_token t : t ≠ "" → has_space t = false → py_split t = [t].
Proof.
  intros Hne Ht. unfold py_split. rewrite split_go_no_space by done.
  simpl. by destruct (String.eqb_spec t "").
Qed.

(** Splitting a joined list splits every item. *)
Lemma py_split_join (l : list string) :
  py_split (join " " l) = l ≫= py_split.
Proof.
  induction l as [|t l IH]; [done |].
  destruct l as [|t' l].
  - simpl. by rewrite app_nil_r.
  - rewrite join_cons by done.
    change (" " +:+ join " " (t' :: l)) with (String " " (join " " (t' :: l))).
    by rewrite py_split_app_space, IH.
Qed.

(** X2: joining tokens by single spaces and splitting again gives the tokens
    back, for tokens that are non-empty and free of whitespace. *)
Theorem py_split_join_tokens (tokens : list string) :
  Forall (λ t, t ≠ "" ∧ has_space t = false) tokens →
  py_split (join " " tokens) = tokens.
Proof.
  intros Htokens. rewrite py_split_join.
  induction Htokens as [|t l [Hne Ht] _ IH]; [done |].
  rewrite bind_cons, IH, py_split_token by done. done.
Qed.

Lemma py_split_join_tokens_witness :
  py_split (join " " ["This"; "is"; "a"; "______"; "example."])
  = ["This"; "is"; "a"; "______"; "example."].
Proof.
  apply (py_split_join_tokens ["This"; "is"; "a"; "______"; "example."]).
  repeat (apply Forall_cons_2; [split; [discriminate | reflexivity] |]).
  apply Forall_nil_2.
Defined.

(** X3: normalising the whitespace of a sentence (split, then join by single
    spaces) keeps its tokens, so normalising twice is normalising once. *)
Theorem py_split_normalised s :
  py_split (join " " (py_split s)) = py_split s
  ∧ join " " (py_split (join " " (py_split s))) = join " " (py_split s).
Proof.
  assert (py_split (join " " (py_split s)) = py_split s) as Heq.
  { rewrite py_split_join.
    pose proof (split_go_tokens "" s eq_refl) as Htokens.
    fold (py_split s) in Htokens.
    induction Htokens as [|t l [Hne Ht] _ IH]; [done |].
    by rewrite bind_cons, IH, py_split_token by done. }
  by rewrite Heq.
Qed.

(** ** More on insert_filler_markers *)

Lemma tokens_bind_py_split (l : list string) :
  Forall (λ t, t ≠ "" ∧ has_space t = false) l → l ≫= py_split = l.
Proof.
  induction 1 as [|t l [Hne Ht] _ IH]; [done |].
  by rewrite bind_cons, IH, py_split_token by done.
Qed.

Lemma not_in_tokens_missing_blank sentence filler filler_markers :
  blank ∉ py_split sentence →
  insert_filler_markers sentence filler filler_markers
  = Raise (missing_blank_error sentence).
Proof.
  intros Hno%find_index_None.
  unfold insert_filler_markers, insert_filler_markers_body, list_index.
  by rewrite Hno.
Qed.

(** X4: with a pair of marker strings, only the first blank token is
    replaced: the output is the tokens before it, the start marker, the
    filler, the end marker and the tokens after it (later blank tokens
    included) joined by single spaces, and splitting the output gives these
    tokens back, the filler and the markers split into their own words. *)
Theorem insert_filler_markers_first_blank
    sentence filler start_marker end_marker pre post :
  py_split sentence = pre ++ blank :: post →
  blank ∉ pre →
  ∃ out,
    insert_filler_markers sentence filler
      (PyTuple [PyStr start_marker; PyStr end_marker]) = Ok out
    ∧ out = join " " (pre ++ start_marker :: filler :: end_marker :: post)
    ∧ py_split out
      = pre ++ py_split start_marker ++ py_split filler
          ++ py_split end_marker ++ post.
Proof.
  intros Hsplit Hpre. eexists. split; [by apply insert_filler_markers_tokens |].
  split; [done |].
  pose proof (split_go_tokens "" sentence eq_refl) as Htokens.
  fold (py_split sentence) in Htokens. rewrite Hsplit in Htokens.
  apply Forall_app in Htokens as [Hpre_ok Hpost_ok].
  apply Forall_cons_1 in Hpost_ok as [_ Hpost_ok].
  rewrite py_split_join, bind_app, !bind_cons.
  by rewrite !tokens_bind_py_split by done.
Qed.

Lemma insert_filler_markers_first_blank_witness :
  ∃ out,
    insert_filler_markers "Mix  ______ and ______ ." "brown sugar"
      (PyTuple [PyStr "[F]"; PyStr "[/F]"]) = Ok out
    ∧ out = join " " (["Mix"] ++ "[F]" :: "brown sugar" :: "[/F]"
                        :: ["and"; "______"; "."])
    ∧ py_split out
      = ["Mix"] ++ py_split "[F]" ++ py_split "brown sugar"
          ++ py_split "[/F]" ++ ["and"; "______"; "."].
Proof.
  apply (insert_filler_markers_first_blank "Mix  ______ and ______ ."
           "brown sugar" "[F]" "[/F]" ["Mix"] ["and"; "______"; "."]).
  - reflexivity.
  - intros Hin. apply elem_of_cons in Hin as [Hin|Hin]; [discriminate Hin |].
    by apply elem_of_nil in Hin.
Defined.

(** X5: when the blank token occurs once in the sentence and is no word of
    the filler or of the markers, the output has no blank token left; marking
    it again raises the missing-blank error. *)
Theorem insert_filler_markers_uses_up_blank
    sentence filler start_marker end_marker pre post :
  py_split sentence = pre ++ blank :: post →
  blank ∉ pre ++ post →
  blank ∉ py_split start_marker ++ py_split filler ++ py_split end_marker →
  ∃ out,
    insert_filler_markers sentence filler
      (PyTuple [PyStr start_marker; PyStr end_marker]) = Ok out
    ∧ (blank ∉ py_split out)
    ∧ ∀ filler' filler_markers',
        insert_filler_markers out filler' filler_markers'
        = Raise (missing_blank_error out).
Proof.
  intros Hsplit [Hpre Hpost]%not_elem_of_app Hwords.
  eexists. split; [by apply insert_filler_markers_tokens |].
  assert (blank ∉ py_split
            (join " " (pre ++ start_marker :: filler :: end_marker :: post)))
    as Hout.
  { pose proof (split_go_tokens "" sentence eq_refl) as Htokens.
    fold (py_split sentence) in Htokens. rewrite Hsplit in Htokens.
    apply Forall_app in Htokens as [Hpre_ok Hpost_ok].
    apply Forall_cons_1 in Hpost_ok as [_ Hpost_ok].
    rewrite py_split_join, bind_app, !bind_cons.
    rewrite !tokens_bind_py_split by done.
    rewrite !not_elem_of_app in Hwords. rewrite !not_elem_of_app. tauto. }
  split; [done |]. intros filler' filler_markers'.
  by apply not_in_tokens_missing_blank.
Qed.

Lemma insert_filler_markers_uses_up_blank_witness :
  ∃ out,
    insert_filler_markers "This is a ______ example." "really simple"
      (PyTuple [PyStr "[F]"; PyStr "[/F]"]) = Ok out
    ∧ (blank ∉ py_split out)
    ∧ ∀ filler' filler_markers',
        insert_filler_markers out filler' filler_markers'
        = Raise (missing_blank_error out).
Proof.
  apply (insert_filler_markers_uses_up_blank "This is a ______ example."
           "really simple" "[F]" "[/F]" ["This"; "is"; "a"] ["example."]).
  - reflexivity.
  - apply find_index_None. reflexivity.
  - apply find_index_None. reflexivity.
Defined.

Lemma all_str_app_fmap i (l : list string) rest :
  all_str i ((PyStr <$> l) ++ rest)
  = ts ← all_str (i + length l) rest; Ok (l ++ ts).
Proof.
  revert i. induction l as [|t l IH]; intros i; simpl.
  - rewrite Nat.add_0_r. by destruct (all_str i rest).
  - rewrite IH. replace (S i + length l) with (i + S (length l)) by lia.
    by destruct (all_str _ rest).
Qed.

(** X6: a two-element tuple with an item that is not a string passes the
    guard on the markers; the call then raises the [TypeError] of
    [" ".join], which names the position of that item among the tokens (the
    blank index for the start marker, two further for the end marker) and its
    type. *)
Theorem insert_filler_markers_non_str_marker
    sentence filler start_marker end_marker pre post :
  py_split sentence = pre ++ blank :: post →
  blank ∉ pre →
  ((∀ s, start_marker ≠ PyStr s) →
   insert_filler_markers sentence filler (PyTuple [start_marker; end_marker])
   = Raise (TypeError [Lit "sequence item "; Str (PyInt (Z.of_nat (length pre)));
                       Lit ": expected str instance, ";
                       Lit (type_name start_marker); Lit " found"]))
  ∧ ((∃ s, start_marker = PyStr s) →
     (∀ s, end_marker ≠ PyStr s) →
     insert_filler_markers sentence filler (PyTuple [start_marker; end_marker])
     = Raise (TypeError [Lit "sequence item ";
                         Str (PyInt (Z.of_nat (length pre + 2)));
                         Lit ": expected str instance, ";
                         Lit (type_name end_marker); Lit " found"])).
Proof.
  intros Hsplit Hpre.
  assert (insert_filler_markers sentence filler
            (PyTuple [start_marker; end_marker])
          = try_except_ValueError
              (py_join " " ((PyStr <$> pre) ++ start_marker :: PyStr filler
                              :: end_marker :: (PyStr <$> post)))
              (Raise (missing_blank_error sentence))) as ->.
  { unfold insert_filler_markers, insert_filler_markers_body, list_index.
    rewrite Hsplit, find_index_app by done. simpl.
    rewrite fmap_app, fmap_cons.
    rewrite insert_app_r_alt by (rewrite length_fmap; lia).
    rewrite length_fmap, Nat.sub_diag. simpl.
    by rewrite !list_insert_at_app by (by rewrite length_fmap). }
  unfold py_join. rewrite all_str_app_fmap. simpl. split.
  - intros Hstart.
    destruct start_marker as [| | |s| |]; try done. by destruct (Hstart s).
  - intros [s ->] Hend. simpl.
    destruct end_marker as [| | |s'| |]; try (by destruct (Hend s'));
      simpl; by replace (length pre + 2) with (S (S (length pre))) by lia.
Qed.

Lemma insert_filler_markers_non_str_marker_witness :
  insert_filler_markers "This is a ______ example." "really simple"
    (PyTuple [PyInt 1; PyStr "[/F]"])
  = Raise (TypeError [Lit "sequence item "; Str (PyInt 3);
                      Lit ": expected str instance, "; Lit "int"; Lit " found"])
  ∧ insert_filler_markers "This is a ______ example." "really simple"
      (PyTuple [PyStr "[F]"; PyNone])
    = Raise (TypeError [Lit "sequence item "; Str (PyInt 5);
                        Lit ": expected str instance, "; Lit "NoneType";
                        Lit " found"]).
Proof.
  assert (Hpre : blank ∉ ["This"; "is"; "a"])
    by (apply find_index_None; reflexivity).
  split.
  - destruct (insert_filler_markers_non_str_marker "This is a ______ example."
                "really simple" (PyInt 1) (PyStr "[/F]")
                ["This"; "is"; "a"] ["example."] eq_refl Hpre) as [Hstart _].
    by apply Hstart.
  - destruct (insert_filler_markers_non_str_marker "This is a ______ example."
                "really simple" (PyStr "[F]") PyNone
                ["This"; "is"; "a"] ["example."] eq_refl Hpre) as [_ Hend].
    apply Hend; [by eexists | done].
Defined.

(** ** More on retrieve_instances_from_dataset *)

Lemma mapM_first_failure {A B} (f : A → result B) l1 a l2 e :
  Forall (λ x, ∃ b, f x = Ok b) l1 →
  f a = Raise e →
  mapM f (l1 ++ a :: l2) = Raise e.
Proof.
  intros Hok Hfail. rewrite mapM_app.
  destruct (mapM_total f l1 Hok) as [bs ->]. simpl. by rewrite Hfail.
Qed.

Lemma mapM_ext {A B} (f g : A → result B) l :
  (∀ x, x ∈ l → f x = g x) → mapM f l = mapM g l.
Proof.
  induction l as [|a l IH]; intros Hfg; simpl; [done |].
  rewrite (Hfg a) by left. rewrite IH; [done |].
  intros x Hx. apply Hfg. by right.
Qed.

Lemma dataset_instances_app d1 d2 :
  dataset_instances (d1 ++ d2) = dataset_instances d1 ++ dataset_instances d2.
Proof. unfold dataset_instances, fillna. by rewrite fmap_app, bind_app. Qed.

Lemma dataset_instances_cons r d :
  dataset_instances (r :: d)
  = (pair (fillna_row r) <$> filler_indices) ++ dataset_instances d.
Proof. unfold dataset_instances, fillna. by rewrite fmap_cons, bind_cons. Qed.

Section StringMarkers.
Variables (use_context : bool) (start_marker end_marker : string).

Lemma instance_text_with_blank (r : row) k :
  k ∈ filler_indices →
  blank ∈ py_split (Sentence r) →
  ∃ text,
    instance_text r k use_context (PyTuple [PyStr start_marker; PyStr end_marker])
    = Ok text.
Proof.
  intros Hk Hblank. destruct (get_filler_Ok r k Hk) as [filler Hf].
  destruct (insert_filler_markers_succeeds (Sentence r) filler
              start_marker end_marker Hblank) as [out Hout].
  erewrite instance_text_of_sent; [by eexists |].
  unfold sent_with_filler. rewrite Hf. exact Hout.
Qed.

Lemma instance_text_without_blank (r : row) k :
  k ∈ filler_indices →
  blank ∉ py_split (Sentence r) →
  instance_text r k use_context (PyTuple [PyStr start_marker; PyStr end_marker])
  = Raise (missing_blank_error (Sentence r)).
Proof.
  intros Hk Hblank. destruct (get_filler_Ok r k Hk) as [filler Hf].
  unfold instance_text, sent_with_filler. rewrite Hf. simpl.
  by rewrite not_in_tokens_missing_blank.
Qed.

(** X7: with a pair of marker strings, the first row whose sentence has no
    blank token decides the outcome: the call raises the missing-blank error
    for that sentence and returns nothing, whatever the rows after it hold. *)
Theorem retrieve_instances_first_row_without_blank before r after :
  Forall (λ r', blank ∈ py_split (Sentence (fillna_row r'))) before →
  blank ∉ py_split (Sentence (fillna_row r)) →
  retrieve_instances_from_dataset (before ++ r :: after) use_context
    (PyTuple [PyStr start_marker; PyStr end_marker])
  = Raise (ValueError [Lit "Sentence "; Str (PyStr (Sentence (fillna_row r)));
                       Lit " does not contain blank."]).
Proof.
  intros Hbefore Hr.
  rewrite retrieve_instances_from_dataset_mapM.
  rewrite dataset_instances_app, dataset_instances_cons.
  change (pair (fillna_row r) <$> filler_indices)
    with ((fillna_row r, 1) :: (pair (fillna_row r) <$> seq 2 4)).
  rewrite <- app_comm_cons.
  erewrite mapM_first_failure; [done | |].
  - apply Forall_forall.
    intros [r' k] [Hr' Hk]%elem_of_dataset_instances. simpl.
    apply instance_text_with_blank; [done |].
    unfold fillna in Hr'. apply list_elem_of_fmap in Hr' as (raw & -> & Hraw).
    rewrite Forall_forall in Hbefore. by apply Hbefore.
  - simpl. apply instance_text_without_blank; [|done].
    apply elem_of_seq. lia.
Qed.
End StringMarkers.

Lemma retrieve_instances_first_row_without_blank_witness :
  retrieve_instances_from_dataset
    [sample_row; Row (Some "11") None None None None None None None None None None;
     sample_row_follow_up]
    true SIMPLE_FEATURES_FILLER_MARKERS
  = Raise (ValueError [Lit "Sentence "; Str (PyStr "");
                       Lit " does not contain blank."]).
Proof.
  apply (retrieve_instances_first_row_without_blank true "[F]" "[/F]"
           [sample_row]
           (Row (Some "11") None None None None None None None None None None)
           [sample_row_follow_up]).
  - apply Forall_cons_2; [vm_compute; do 2 right; left | apply Forall_nil_2].
  - apply find_index_None. reflexivity.
Defined.

(** Equal strings with tails of the same length have equal heads. *)
Lemma str_app_inj_length s1 s2 t1 t2 :
  s1 +:+ t1 = s2 +:+ t2 →
  String.length t1 = String.length t2 →
  s1 = s2 ∧ t1 = t2.
Proof.
  revert s2. induction s1 as [|c s1 IH]; intros [|d s2]; simpl.
  - done.
  - intros -> Hlen. simpl in Hlen. rewrite str_length_app in Hlen. lia.
  - intros <- Hlen. simpl in Hlen. rewrite str_length_app in Hlen. lia.
  - intros [= -> Heq] Hlen. by destruct (IH _ Heq Hlen) as [-> ->].
Qed.

Lemma row_ids_Id (r r' : row) x : x ∈ row_ids r → x ∈ row_ids r' → Id r = Id r'.
Proof.
  unfold row_ids. intros Hx Hx'.
  repeat (apply elem_of_cons in Hx as [->|Hx]);
    [| | | | |by apply elem_of_nil in Hx];
    repeat (apply elem_of_cons in Hx' as [Hx'|Hx']);
    try (by apply elem_of_nil in Hx');
    by apply str_app_inj_length in Hx' as [? _].
Qed.

Lemma NoDup_row_ids (r : row) : NoDup (row_ids r).
Proof.
  unfold row_ids.
  repeat (apply NoDup_cons_2;
          [rewrite ?not_elem_of_cons;
           repeat split; try apply not_elem_of_nil;
           by intros ?%(inj (String.app (Id r))) |]).
  apply NoDup_nil_2.
Qed.

(** Rows with pairwise different ids have pairwise different lists of
    instance ids. *)
Lemma dataset_ids_NoDup dataset :
  NoDup (Id <$> fillna dataset) → NoDup (dataset_ids dataset).
Proof.
  unfold dataset_ids. generalize (fillna dataset). intros rows.
  induction rows as [|r rows IH]; [constructor |].
  rewrite fmap_cons, bind_cons. intros [Hr Hrows]%NoDup_cons.
  apply NoDup_app. split; [apply NoDup_row_ids |]. split; [|by apply IH].
  intros x Hx (r' & Hx' & Hr')%list_elem_of_bind.
  apply Hr. rewrite (row_ids_Id r r' x Hx Hx').
  by apply list_elem_of_fmap_2.
Qed.

Lemma filler_index_digit k : k ∈ filler_indices → ∃ c, pretty k = String c "".
Proof.
  unfold filler_indices. rewrite elem_of_seq. intros [Hlo Hhi].
  do 6 (destruct k as [|k]; [by eexists || lia |]). lia.
Qed.

(** X8: the id [f"{row['Id']}_{filler_index}"] determines the row id and
    the filler index; hence, when the rows have pairwise different ids, the
    ids [retrieve_instances_from_dataset] returns are pairwise different, so
    that each one selects one label. *)
Theorem retrieve_instances_distinct_ids
    dataset use_context filler_markers ids texts :
  NoDup (Id <$> fillna dataset) →
  retrieve_instances_from_dataset dataset use_context filler_markers
    = Ok (ids, texts) →
  NoDup ids
  ∧ ∀ (r r' : row) k k',
      k ∈ filler_indices → k' ∈ filler_indices →
      instance_id r k = instance_id r' k' → Id r = Id r' ∧ k = k'.
Proof.
  intros Hrows [-> _]%retrieve_instances_from_dataset_Ok.
  split; [by apply dataset_ids_NoDup |].
  intros r r' k k' [c Hc]%filler_index_digit [c' Hc']%filler_index_digit.
  unfold instance_id. intros Heq.
  apply str_app_inj_length in Heq as [HId Hsuffix].
  - split; [done |]. injection Hsuffix as Hpretty. by apply (inj pretty).
  - by rewrite !str_length_app, Hc, Hc'.
Qed.

Lemma retrieve_instances_distinct_ids_witness :
  NoDup ["7_1"; "7_2"; "7_3"; "7_4"; "7_5"; "8_1"; "8_2"; "8_3"; "8_4"; "8_5"].
Proof.
  apply (retrieve_instances_distinct_ids [sample_row; sample_row_follow_up]
           false PyNone
           ["7_1"; "7_2"; "7_3"; "7_4"; "7_5"; "8_1"; "8_2"; "8_3"; "8_4"; "8_5"]
           ["Add the salt now."; "Add the brown sugar now.";
            "Add the water now."; "Add the  now."; "Add the eggs now.";
            "Stir the mix well."; "Stir the batter well.";
            "Stir the dough well."; "Stir the soup well.";
            "Stir the tea well."]).
  - apply NoDup_cons_2; [|apply NoDup_singleton].
    intros Hin. apply elem_of_cons in Hin as [Hin|Hin]; [discriminate Hin |].
    by apply elem_of_nil in Hin.
  - reflexivity.
Defined.

(** ** More on merge_data *)

Lemma Forall2_elem_l {A B} (P : A → B → Prop) l k x :
  Forall2 P l k → x ∈ l → ∃ y, y ∈ k ∧ P x y.
Proof.
  intros HP [i Hi]%list_elem_of_lookup.
  destruct (Forall2_lookup_l _ _ _ _ _ HP Hi) as (y & Hy & Hxy).
  exists y. split; [|done]. apply list_elem_of_lookup. eauto.
Qed.

Lemma Forall2_Forall_r {A B} (P : A → B → Prop) (Q : B → Prop) l k :
  Forall2 P l k → (∀ x y, P x y → Q y) → Forall Q k.
Proof. induction 1; intros HPQ; constructor; eauto. Qed.

(** X9: a table returned by [merge_data] has five rows for every row of the
    instances table, its three columns have that same length, and every
    label code is 0, 1 or 2. *)
Theorem merge_data_shape instances_df labels_df use_context filler_markers df :
  merge_data instances_df labels_df use_context filler_markers = Ok df →
  length (col_ids df) = 5 * length instances_df
  ∧ length (col_text df) = 5 * length instances_df
  ∧ length (col_label df) = 5 * length instances_df
  ∧ Forall (λ code, code = 0 ∨ code = 1 ∨ code = 2)%Z (col_label df).
Proof.
  intros (texts & Hret & Htext & Hcodes)%merge_data_Ok.
  pose proof (retrieve_instances_lengths _ _ _ _ _ Hret) as Hlen.
  apply retrieve_instances_from_dataset_Ok in Hret as [Hids _].
  rewrite Htext, Hlen, <- (Forall2_length _ _ _ Hcodes), Hids.
  rewrite length_dataset_ids. repeat split; try done.
  eapply Forall2_Forall_r; [exact Hcodes |].
  intros id_elem code (label & _ & Hcode). destruct Hcode; auto.
Qed.

Lemma merge_data_shape_witness :
  length (col_ids (MergedDf ["7_1"; "7_2"; "7_3"; "7_4"; "7_5"]
                     ["Add the salt now."; "Add the brown sugar now.";
                      "Add the water now."; "Add the  now.";
                      "Add the eggs now."] [2; 1; 0; 1; 2]%Z))
    = 5 * length [sample_row]
  ∧ length ["Add the salt now."; "Add the brown sugar now.";
            "Add the water now."; "Add the  now."; "Add the eggs now."]
    = 5 * length [sample_row]
  ∧ length [2; 1; 0; 1; 2]%Z = 5 * length [sample_row]
  ∧ Forall (λ code, code = 0 ∨ code = 1 ∨ code = 2)%Z [2; 1; 0; 1; 2]%Z.
Proof.
  apply (merge_data_shape [sample_row] sample_labels false PyNone
           (MergedDf ["7_1"; "7_2"; "7_3"; "7_4"; "7_5"]
              ["Add the salt now."; "Add the brown sugar now.";
               "Add the water now."; "Add the  now."; "Add the eggs now."]
              [2; 1; 0; 1; 2]%Z)).
  reflexivity.
Defined.

Section LabelDict.
Implicit Types (d : gmap string string) (l : list (string * string)).

Lemma foldl_insert_not_in l d id :
  id ∉ l.*1 →
  foldl (λ d '(id, label), <[id := label]> d) d l !! id = d !! id.
Proof.
  revert d. induction l as [|[k v] l IH]; intros d; simpl; [done |].
  intros [Hne Hl]%not_elem_of_cons. by rewrite IH, lookup_insert_ne.
Qed.

(** With pairwise different ids, the dictionary holds the rows of the table
    and nothing else. *)
Lemma foldl_insert_lookup l d k v :
  NoDup l.*1 →
  foldl (λ d '(id, label), <[id := label]> d) d l !! k = Some v
  ↔ (k, v) ∈ l ∨ ((k ∉ l.*1) ∧ d !! k = Some v).
Proof.
  revert d. induction l as [|[k0 v0] l IH]; intros d; simpl.
  - intros _. split; [intros ?; right; split; [apply not_elem_of_nil | done] |].
    intros [Hin|[_ ?]]; [by apply elem_of_nil in Hin | done].
  - intros [Hk0 Hl]%NoDup_cons. rewrite IH, lookup_insert_Some by done.
    rewrite elem_of_cons, not_elem_of_cons. split.
    + intros [Hin|[Hk [[-> ->]|[Hne Hd]]]]; [by left; right | by left; left |].
      right. by split; [split |].
    + intros [[[= -> ->]|Hin]|[[Hne Hk] Hd]].
      * right. split; [done |]. by left.
      * by left.
      * right. split; [done |]. right. by split.
Qed.
End LabelDict.

(** X10: when an id has several rows in the labels table, the dictionary
    keeps the label of the last one. *)
Theorem build_label_dict_last_row before id_elem label after :
  id_elem ∉ after.*1 →
  build_label_dict (before ++ (id_elem, label) :: after) !! id_elem = Some label
  ∧ dict_getitem (build_label_dict (before ++ (id_elem, label) :: after)) id_elem
    = Ok label.
Proof.
  intros Hafter.
  assert (build_label_dict (before ++ (id_elem, label) :: after) !! id_elem
          = Some label) as Hlookup.
  { unfold build_label_dict. rewrite foldl_app. simpl.
    by rewrite foldl_insert_not_in, lookup_insert_eq. }
  split; [done |]. unfold dict_getitem. by rewrite Hlookup.
Qed.

Lemma build_label_dict_last_row_witness :
  build_label_dict
    ([("7_1", "PLAUSIBLE"); ("7_2", "NEUTRAL")] ++ ("7_1", "IMPLAUSIBLE")
       :: [("7_3", "NEUTRAL")]) !! "7_1" = Some "IMPLAUSIBLE"
  ∧ dict_getitem
      (build_label_dict
         ([("7_1", "PLAUSIBLE"); ("7_2", "NEUTRAL")] ++ ("7_1", "IMPLAUSIBLE")
            :: [("7_3", "NEUTRAL")])) "7_1" = Ok "IMPLAUSIBLE".
Proof.
  apply (build_label_dict_last_row [("7_1", "PLAUSIBLE"); ("7_2", "NEUTRAL")]
           "7_1" "IMPLAUSIBLE" [("7_3", "NEUTRAL")]).
  intros Hin. apply elem_of_cons in Hin as [Hin|Hin]; [discriminate Hin |].
  by apply elem_of_nil in Hin.
Defined.

(** X11: [merge_data] reads the labels table only at the ids the instance
    builder produces: two labels tables that agree on these ids give the same
    outcome, whatever else they hold. *)
Theorem merge_data_other_labels
    instances_df labels_df labels_df' use_context filler_markers :
  (∀ id_elem, id_elem ∈ dataset_ids instances_df →
     build_label_dict labels_df !! id_elem
     = build_label_dict labels_df' !! id_elem) →
  merge_data instances_df labels_df use_context filler_markers
  = merge_data instances_df labels_df' use_context filler_markers.
Proof.
  intros Hagree.
  destruct (retrieve_instances_from_dataset instances_df use_context
              filler_markers) as [[ids texts]|e] eqn:Hret.
  - rewrite !(merge_data_codes _ _ _ _ _ _ Hret).
    apply retrieve_instances_from_dataset_Ok in Hret as [-> _].
    erewrite mapM_ext; [done |].
    intros id_elem Hin. unfold code_of_id, dict_getitem.
    by rewrite Hagree.
  - by rewrite !(merge_data_Raise _ _ _ _ _ Hret).
Qed.

Lemma merge_data_other_labels_witness :
  merge_data [sample_row] sample_labels false PyNone
  = merge_data [sample_row] (("12_1", "MAYBE") :: sample_labels) false PyNone.
Proof.
  apply (merge_data_other_labels [sample_row] sample_labels
           (("12_1", "MAYBE") :: sample_labels) false PyNone).
  intros id_elem Hin.
  repeat (apply elem_of_cons in Hin as [->|Hin]; [reflexivity |]).
  by apply elem_of_nil in Hin.
Defined.

(** X12: when the ids of the labels table are pairwise different, the order
    of its rows has no effect on the dictionary nor on the outcome of
    [merge_data]. *)
Theorem merge_data_label_order
    instances_df labels_df labels_df' use_context filler_markers :
  NoDup labels_df.*1 →
  labels_df ≡ₚ labels_df' →
  build_label_dict labels_df = build_label_dict labels_df'
  ∧ merge_data instances_df labels_df use_context filler_markers
    = merge_data instances_df labels_df' use_context filler_markers.
Proof.
  intros Hnodup Hperm.
  assert (build_label_dict labels_df = build_label_dict labels_df') as Heq.
  { apply map_eq. intros k. apply option_eq. intros v.
    unfold build_label_dict.
    rewrite !foldl_insert_lookup by (by rewrite <- ?Hperm).
    by rewrite !lookup_empty, Hperm. }
  split; [done |]. unfold merge_data. by rewrite Heq.
Qed.

Lemma merge_data_label_order_witness :
  build_label_dict sample_labels = build_label_dict (reverse sample_labels)
  ∧ merge_data [sample_row] sample_labels false PyNone
    = merge_data [sample_row] (reverse sample_labels) false PyNone.
Proof.
  apply (merge_data_label_order [sample_row] sample_labels
           (reverse sample_labels) false PyNone).
  - repeat (apply NoDup_cons_2;
            [rewrite ?not_elem_of_cons;
             repeat split; try apply not_elem_of_nil; discriminate |]).
    apply NoDup_nil_2.
  - symmetry. apply reverse_Permutation.
Defined.

(** When the instances can be built, [merge_data] returns exactly when every
    id has a label of the vocabulary. *)
Lemma merge_data_succeeds instances_df labels_df use_context filler_markers :
  (∃ df, merge_data instances_df labels_df use_context filler_markers = Ok df)
  ↔ (∃ texts,
       retrieve_instances_from_dataset instances_df use_context filler_markers
       = Ok (dataset_ids instances_df, texts))
    ∧ ∀ id_elem, id_elem ∈ dataset_ids instances_df →
        ∃ label code, build_label_dict labels_df !! id_elem = Some label
                      ∧ ordinal_code label code.
Proof.
  split.
  - intros [df (texts & Hret & _ & Hcodes)%merge_data_Ok].
    pose proof Hret as [Hids _]%retrieve_instances_from_dataset_Ok.
    rewrite Hids in *. split; [by eexists |].
    intros id_elem Hin.
    destruct (Forall2_elem_l _ _ _ _ Hcodes Hin) as (code & _ & label & ?).
    by exists label, code.
  - intros [[texts Hret] Hlabels].
    rewrite (merge_data_codes _ _ _ _ _ _ Hret).
    destruct (mapM_total (code_of_id (build_label_dict labels_df))
                (dataset_ids instances_df)) as [codes ->]; [|by eexists].
    apply Forall_forall. intros id_elem Hin.
    destruct (Hlabels id_elem Hin) as (label & code & Hlabel).
    exists code. apply code_of_id_Ok. eauto.
Qed.

Lemma retrieve_instances_no_markers dataset use_context filler_markers :
  truthy filler_markers = false →
  ∃ texts,
    retrieve_instances_from_dataset dataset use_context filler_markers
    = Ok (dataset_ids dataset, texts).
Proof.
  intros Hfalse. rewrite retrieve_instances_from_dataset_mapM.
  destruct (mapM_total (λ p, instance_text p.1 p.2 use_context filler_markers)
              (dataset_instances dataset)) as [texts ->]; [|by eexists].
  apply Forall_forall. intros [r k] [_ Hk]%elem_of_dataset_instances. simpl.
  destruct (get_filler_Ok r k Hk) as [filler Hf].
  erewrite instance_text_of_sent; [by eexists |].
  unfold sent_with_filler. by rewrite Hf, Hfalse.
Qed.

(** X13: on an instances table whose cells are text or missing (the type
    [raw_row]; a numeric Sentence or Filler cell is outside this statement),
    without markers, as bert-models/main.py calls it, [merge_data] returns a
    table exactly when every instance id has a label that is IMPLAUSIBLE,
    NEUTRAL or PLAUSIBLE. *)
Theorem merge_data_no_markers_succeeds
    (instances_df : list (row_of (option string)))
    (labels_df : list (string * string)) use_context filler_markers :
  truthy filler_markers = false →
  (∃ df, merge_data instances_df labels_df use_context filler_markers = Ok df)
  ↔ ∀ id_elem, id_elem ∈ dataset_ids instances_df →
      ∃ label code, build_label_dict labels_df !! id_elem = Some label
                    ∧ ordinal_code label code.
Proof.
  intros Hfalse. rewrite merge_data_succeeds. split; [by intros [_ ?] |].
  intros Hlabels. split; [|done]. by apply retrieve_instances_no_markers.
Qed.

Lemma merge_data_no_markers_succeeds_witness :
  ∃ df, merge_data [sample_row] sample_labels true BERT_MODELS_FILLER_MARKERS
        = Ok df.
Proof.
  apply (merge_data_no_markers_succeeds [sample_row] sample_labels true
           BERT_MODELS_FILLER_MARKERS eq_refl).
  intros id_elem Hin.
  repeat (apply elem_of_cons in Hin as [->|Hin];
          [by eexists _, _; split; [reflexivity | constructor] |]).
  by apply elem_of_nil in Hin.
Defined.

(** X14: on an instances table whose cells are text or missing (the type
    [raw_row]; a numeric Sentence or Filler cell is outside this statement),
    with a pair of marker strings, [merge_data] returns a table exactly when
    every sentence has a blank token and every instance id has a label that
    is IMPLAUSIBLE, NEUTRAL or PLAUSIBLE. *)
Theorem merge_data_markers_succeeds
    (instances_df : list (row_of (option string)))
    (labels_df : list (string * string)) use_context start_marker end_marker :
  (∃ df, merge_data instances_df labels_df use_context
           (PyTuple [PyStr start_marker; PyStr end_marker]) = Ok df)
  ↔ Forall (λ r : row, blank ∈ py_split (Sentence r)) (fillna instances_df)
    ∧ ∀ id_elem, id_elem ∈ dataset_ids instances_df →
        ∃ label code, build_label_dict labels_df !! id_elem = Some label
                      ∧ ordinal_code label code.
Proof.
  rewrite merge_data_succeeds.
  assert ((∃ texts,
             retrieve_instances_from_dataset instances_df use_context
               (PyTuple [PyStr start_marker; PyStr end_marker])
             = Ok (dataset_ids instances_df, texts))
          ↔ Forall (λ r : row, blank ∈ py_split (Sentence r))
              (fillna instances_df)) as ->; [|done].
  split.
  - intros [texts [_ Htexts]%retrieve_instances_from_dataset_Ok].
    apply Forall_forall. intros r Hr.
    assert (1 ∈ filler_indices) as H1 by (apply elem_of_seq; lia).
    destruct (Forall2_elem_l _ _ _ (r, 1) Htexts) as (text & _ & Htext).
    { by apply elem_of_dataset_instances. }
    destruct (decide (blank ∈ py_split (Sentence r))) as [|Hno]; [done |].
    simpl in Htext. by rewrite instance_text_without_blank in Htext.
  - intros Hblank. rewrite retrieve_instances_from_dataset_mapM.
    destruct (mapM_total
                (λ p, instance_text p.1 p.2 use_context
                        (PyTuple [PyStr start_marker; PyStr end_marker]))
                (dataset_instances instances_df)) as [texts ->]; [|by eexists].
    apply Forall_forall. intros [r k] [Hr Hk]%elem_of_dataset_instances.
    rewrite Forall_forall in Hblank.
    by apply instance_text_with_blank, Hblank.
Qed.

Lemma merge_data_markers_succeeds_witness :
  ∃ df, merge_data [sample_row] sample_labels true F_markers = Ok df.
Proof.
  apply (merge_data_markers_succeeds [sample_row] sample_labels true
           "[F]" "[/F]").
  split.
  - apply Forall_cons_2; [vm_compute; do 2 right; left | apply Forall_nil_2].
  - intros id_elem Hin.
    repeat (apply elem_of_cons in Hin as [->|Hin];
            [by eexists _, _; split; [reflexivity | constructor] |]).
    by apply elem_of_nil in Hin.
Defined.

(** ** More on the plain replacement *)

Lemma startswith_app_l old a b :
  startswith old a = true → startswith old (a +:+ b) = true.
Proof.
  revert a. induction old as [|c old IH]; intros a; [done |].
  destruct a as [|d a]; simpl; [done |].
  destruct (Ascii.eqb c d); [apply IH | done].
Qed.

Lemma startswith_cons a p b s :
  startswith (String a p) (String b s)
  = if Ascii.eqb a b then startswith p s else false.
Proof. done. Qed.

Lemma contains_app_false_l old a b :
  contains old (a +:+ b) = false → contains old a = false.
Proof.
  induction a as [|c a IH].
  - simpl. intros Hb. destruct old; [by destruct b | done].
  - change (String c a +:+ b) with (String c (a +:+ b)).
    cbn [contains]. intros [Hc Ha]%orb_false_elim.
    rewrite IH, orb_false_r by done.
    destruct (startswith old (String c a)) eqn:Hstart; [|done].
    apply (startswith_app_l _ _ b) in Hstart.
    change (String c a +:+ b) with (String c (a +:+ b)) in Hstart. congruence.
Qed.

(** A character that is no underscore separates the occurrences of the blank
    before it from those after it. *)
Lemma contains_blank_sep p c rest :
  Ascii.eqb "_" c = false →
  contains blank (p +:+ String c rest)
  = contains blank p || contains blank rest.
Proof.
  intros Hc. induction p as [|d p IH].
  - change ("" +:+ String c rest) with (String c rest).
    cbn [contains]. unfold blank at 1. by rewrite startswith_cons, Hc.
  - change (String d p +:+ String c rest) with (String d (p +:+ String c rest)).
    cbn [contains]. rewrite IH, orb_assoc. f_equal. f_equal.
    change (String d (p +:+ String c rest)) with (String d p +:+ String c rest).
    apply startswith_sep; [done |].
    unfold blank. cbn [contains].
    by rewrite !startswith_cons, (Ascii.eqb_sym c "_"), Hc.
Qed.

Lemma contains_blank_filler p filler rest :
  filler ≠ "" →
  contains "_" filler = false →
  contains blank (p +:+ filler +:+ rest)
  = contains blank p || contains blank rest.
Proof.
  intros Hne Hfiller.
  assert (∀ f, contains "_" f = false →
               contains blank (f +:+ rest) = contains blank rest) as Hskip.
  { induction f as [|c f IH]; [done |].
    cbn [contains startswith]. intros [Hc Hf]%orb_false_elim.
    destruct (Ascii.eqb "_" c) eqn:Hcc; [done |].
    change (String c f +:+ rest) with ("" +:+ String c (f +:+ rest)).
    rewrite contains_blank_sep by done. by rewrite IH. }
  destruct filler as [|c f]; [done |].
  cbn [contains startswith] in Hfiller.
  apply orb_false_elim in Hfiller as [Hc Hf].
  destruct (Ascii.eqb "_" c) eqn:Hcc; [done |].
  change (String c f +:+ rest) with (String c (f +:+ rest)).
  rewrite contains_blank_sep by done. by rewrite Hskip.
Qed.

Lemma join_filler_no_blank filler pieces last :
  filler ≠ "" →
  contains "_" filler = false →
  Forall (λ p, contains blank p = false) pieces →
  contains blank last = false →
  contains blank (join filler (pieces ++ [last])) = false.
Proof.
  intros Hne Hfiller Hpieces Hlast.
  induction Hpieces as [|p pieces Hp _ IH]; [done |].
  rewrite <- app_comm_cons, join_cons by by destruct pieces.
  by rewrite contains_blank_filler, Hp, IH.
Qed.

(** X15: without markers, a filler that is not empty and holds no underscore
    leaves no "______" in the sentence with its filler. *)
Theorem plain_replacement_leaves_no_blank (r : row) k filler_markers filler :
  truthy filler_markers = false →
  get_filler r k = Ok filler →
  filler ≠ "" →
  contains "_" filler = false →
  sent_with_filler r k filler_markers = Ok (py_replace blank filler (Sentence r))
  ∧ contains blank (py_replace blank filler (Sentence r)) = false.
Proof.
  intros Hfalse Hf Hne Hfiller. split.
  { unfold sent_with_filler. by rewrite Hf, Hfalse. }
  destruct (blank_pieces (Sentence r)) as (pieces & last & -> & Hpieces & Hlast).
  rewrite py_replace_pieces by done.
  apply join_filler_no_blank; try done.
  eapply Forall_impl; [exact Hpieces |].
  intros p Hp. by apply contains_app_false_l in Hp.
Qed.

Lemma plain_replacement_leaves_no_blank_witness :
  sent_with_filler (fillna_row sample_row_two_blanks) 2 PyNone
    = Ok (py_replace blank "brown sugar" "Mix ______ and (______).")
  ∧ contains blank (py_replace blank "brown sugar" "Mix ______ and (______).")
    = false.
Proof.
  apply (plain_replacement_leaves_no_blank (fillna_row sample_row_two_blanks)
           2 PyNone "brown sugar"); [reflexivity | reflexivity | | reflexivity].
  discriminate.
Defined.

(** With an empty filler the parts around a blank can form a new one. *)
Lemma empty_filler_can_leave_blank :
  py_replace blank "" "_________ ___" = "___ ___"
  ∧ py_replace blank "" "____________" = ""
  ∧ py_replace blank "" "_______________" = "___".
Proof. repeat split. Qed.

(** ** Marker values the guard rejects *)

Lemma rejected_markers_missing_blank sentence filler filler_markers :
  markers_rejected filler_markers = true →
  insert_filler_markers sentence filler filler_markers
  = Raise (missing_blank_error sentence).
Proof.
  intros Hrej.
  destruct (decide (blank ∈ py_split sentence)) as [Hin|Hno].
  - by destruct (rejected_markers_reported_as_missing_blank sentence filler
                   filler_markers Hin Hrej) as [_ ->].
  - by apply not_in_tokens_missing_blank.
Qed.

(** X16: a marker value that is truthy but no two-element tuple (a list, a
    string, a number, a longer tuple) makes the instance builder fail at the
    first row, with the missing-blank error for that row's sentence, whether
    or not the sentence has a blank token; [merge_data] fails the same way,
    before any label is looked up. *)
Theorem rejected_markers_fail_at_first_row
    r rest labels_df use_context filler_markers :
  truthy filler_markers = true →
  markers_rejected filler_markers = true →
  retrieve_instances_from_dataset (r :: rest) use_context filler_markers
    = Raise (ValueError [Lit "Sentence "; Str (PyStr (Sentence (fillna_row r)));
                         Lit " does not contain blank."])
  ∧ merge_data (r :: rest) labels_df use_context filler_markers
    = Raise (ValueError [Lit "Sentence "; Str (PyStr (Sentence (fillna_row r)));
                         Lit " does not contain blank."]).
Proof.
  intros Htrue Hrej.
  assert (retrieve_instances_from_dataset (r :: rest) use_context filler_markers
          = Raise (missing_blank_error (Sentence (fillna_row r)))) as Hret.
  { rewrite retrieve_instances_from_dataset_mapM, dataset_instances_cons.
    change (pair (fillna_row r) <$> filler_indices)
      with ((fillna_row r, 1) :: (pair (fillna_row r) <$> seq 2 4)).
    rewrite <- app_comm_cons.
    assert (instance_text (fillna_row r) 1 use_context filler_markers
            = Raise (missing_blank_error (Sentence (fillna_row r)))) as Hfirst.
    { unfold instance_text, sent_with_filler.
      cbn [get_filler mbind result_bind]. rewrite Htrue.
      by rewrite rejected_markers_missing_blank. }
    cbn [mapM fst snd]. by rewrite Hfirst. }
  split; [exact Hret |]. by apply merge_data_Raise.
Qed.

Lemma rejected_markers_fail_at_first_row_witness :
  retrieve_instances_from_dataset [sample_row; sample_row_follow_up] true
    (PyList [PyStr "[F]"; PyStr "[/F]"])
    = Raise (ValueError [Lit "Sentence "; Str (PyStr "Add the ______ now.");
                         Lit " does not contain blank."])
  ∧ merge_data [sample_row; sample_row_follow_up] [] true
      (PyList [PyStr "[F]"; PyStr "[/F]"])
    = Raise (ValueError [Lit "Sentence "; Str (PyStr "Add the ______ now.");
                         Lit " does not contain blank."]).
Proof.
  apply (rejected_markers_fail_at_first_row sample_row [sample_row_follow_up]
           [] true (PyList [PyStr "[F]"; PyStr "[/F]"]));
    reflexivity.
Defined.
